(** * Account attribute inference engine of the Telegram account analyzer

    A shallow embedding of the decision logic of [src/info.py]
    (class [TelegramAccountAnalyzer]): the registration-date estimator
    [_estimate_registration_date], the country estimator
    [_estimate_country] with its two table lookups
    [_country_from_lang_code] and [_country_from_phone], the last-seen
    classifier [_get_user_status], and the part of [get_user_info] that
    assembles the analysis record out of them; further the profile
    helpers [_get_dc_id], [_has_profile_photo], [_get_common_chats] and
    [_get_user_bio], the username step of [get_user_info], and the
    report writer [format_user_info].

    Python values are embedded as follows.
    - An [int] is a [Z]; a [bool] is a [bool] (and counts as the integer
      0 or 1 in comparisons, as in Python).
    - A [str] is a [string] holding one [ascii] per character, so the
      embedding covers text whose characters lie below U+0100.  The
      labels that the source file carries with characters beyond that
      range are kept as the bytes of the file; a label is never
      inspected, only compared with ['Unknown'] and concatenated.
    - A naive [datetime] is a count of microseconds, a [timedelta] its
      normalised triple of days, seconds and microseconds.
    - A [dict] literal is an association list with pairwise distinct
      keys.
    - A method body runs in a state-and-exception monad over a [world]
      that holds the wall clock and the log written by [logger.error]. *)

From Stdlib Require Import ZArith List String Ascii Bool Lia DecimalString.
Import ListNotations.

Local Open Scope string_scope.
Local Open Scope Z_scope.

(** ** Python values and exceptions *)

Module Py.

(** The values that reach the engine as raw attributes. *)
Inductive pyval : Type :=
| PNone
| PBool (b : bool)
| PInt (z : Z)
| PStr (s : string).

(** [type(v).__name__] *)
Definition type_name_of (v : pyval) : string :=
  match v with
  | PNone => "NoneType"
  | PBool _ => "bool"
  | PInt _ => "int"
  | PStr _ => "str"
  end.

(** Truth value testing, as [if v:] does it. *)
Definition truthy (v : pyval) : bool :=
  match v with
  | PNone => false
  | PBool b => b
  | PInt z => negb (z =? 0)
  | PStr s => negb (String.eqb s "")
  end.

Inductive exn : Type :=
| TypeError (msg : string)
| AttributeError (msg : string)
| ValueError (msg : string).

(** [str(e)] *)
Definition exn_str (e : exn) : string :=
  match e with
  | TypeError msg => msg
  | AttributeError msg => msg
  | ValueError msg => msg
  end.

(** The part of the process state the engine touches: the wall clock,
    read by [datetime.now()], and the records handed to [logger.error].
    [clock w n] is the time, in microseconds, that the [n]-th reading
    returns; [reads w] counts the readings made so far. *)
Record world : Type := mkWorld {
  clock : nat -> Z;
  reads : nat;
  log : list string
}.

Inductive result (A : Type) : Type :=
| Ok (a : A)
| Raise (e : exn).
Arguments Ok {A} a.
Arguments Raise {A} e.

Definition M (A : Type) : Type := world -> result A * world.

Definition ret {A} (a : A) : M A := fun w => (Ok a, w).

Definition raise {A} (e : exn) : M A := fun w => (Raise e, w).

Definition bind {A B} (c : M A) (k : A -> M B) : M B :=
  fun w =>
    match c w with
    | (Ok a, w') => k a w'
    | (Raise e, w') => (Raise e, w')
    end.

(** [try: body  except Exception as e: handler e] *)
Definition try_except {A} (body : M A) (handler : exn -> M A) : M A :=
  fun w =>
    match body w with
    | (Ok a, w') => (Ok a, w')
    | (Raise e, w') => handler e w'
    end.

(** [logger.error(msg)] *)
Definition logger_error (msg : string) : M unit :=
  fun w => (Ok tt, mkWorld (clock w) (reads w) (log w ++ [msg])%list).

(** A [datetime]: the wall-clock reading in microseconds and, for an
    aware value, the UTC offset of its [tzinfo] in microseconds. *)
Record datetime : Type := mkDatetime {
  micros : Z;
  tzinfo : option Z
}.

(** A [timedelta], normalised as Python keeps it: [seconds] within a
    day and [microseconds] within a second, the sign carried by
    [days]. *)
Record timedelta : Type := mkTimedelta {
  days : Z;
  seconds : Z;
  microseconds : Z
}.

Definition timedelta_of_micros (us : Z) : timedelta :=
  mkTimedelta (us / 86400000000)
              ((us mod 86400000000) / 1000000)
              (us mod 1000000).

(** [datetime.now()]: a naive value read off the clock. *)
Definition datetime_now : M datetime :=
  fun w => (Ok (mkDatetime (clock w (reads w)) None),
            mkWorld (clock w) (S (reads w)) (log w)).

(** [d.replace(tzinfo=None)] *)
Definition replace_tzinfo_none (d : datetime) : datetime :=
  mkDatetime (micros d) None.

(** [a - b] on datetimes: two naive values subtract as they stand, two
    aware values after conversion to UTC, and a mixed pair raises. *)
Definition datetime_sub (a b : datetime) : M timedelta :=
  match tzinfo a, tzinfo b with
  | None, None => ret (timedelta_of_micros (micros a - micros b))
  | Some oa, Some ob =>
      ret (timedelta_of_micros ((micros a - oa) - (micros b - ob)))
  | _, _ =>
      raise (TypeError "can't subtract offset-naive and offset-aware datetimes")
  end.

(** The value a computation returns, whatever it does to the world. *)
Definition value {A} (r : result A * world) : result A := fst r.

End Py.
Import Py.

Notation "x <- c ;; k" := (bind c (fun x => k))
  (at level 61, c at next level, right associativity).
Notation "c ;;; k" := (bind c (fun _ => k))
  (at level 61, right associativity).

(** ** Strings *)

Module Str.

Definition code (c : ascii) : N := N_of_ascii c.

(** [str.isdigit] on one character: the decimal digits, and the
    superscripts U+00B2, U+00B3 and U+00B9. *)
Definition isdigit (c : ascii) : bool :=
  let n := code c in
  (((48 <=? n) && (n <=? 57)) || (n =? 178) || (n =? 179) || (n =? 185))%N.

(** [str.lower] on one character: A-Z, and U+00C0-U+00DE but U+00D7. *)
Definition lower_char (c : ascii) : ascii :=
  let n := code c in
  if (((65 <=? n) && (n <=? 90))
      || ((192 <=? n) && (n <=? 222) && negb (n =? 215)))%N
  then ascii_of_N (n + 32) else c.

Fixpoint lower (s : string) : string :=
  match s with
  | EmptyString => EmptyString
  | String c s' => String (lower_char c) (lower s')
  end.

(** [''.join(filter(f, s))] *)
Fixpoint filter (f : ascii -> bool) (s : string) : string :=
  match s with
  | EmptyString => EmptyString
  | String c s' => if f c then String c (filter f s') else filter f s'
  end.

(** [s[:n]] *)
Fixpoint take (n : nat) (s : string) : string :=
  match n, s with
  | S n', String c s' => String c (take n' s')
  | _, _ => EmptyString
  end.

(** [sub in s] *)
Fixpoint contains (sub s : string) : bool :=
  if prefix sub s then true
  else match s with
       | EmptyString => false
       | String _ s' => contains sub s'
       end.

(** [s.replace(pat, '')] for a non-empty [pat]: the occurrences of
    [pat] are deleted from left to right, without overlap.  [skip]
    counts the characters of the current occurrence still to drop. *)
Fixpoint delete_from (pat : string) (skip : nat) (s : string) : string :=
  match s with
  | EmptyString => EmptyString
  | String c s' =>
      match skip with
      | S k => delete_from pat k s'
      | O => if prefix pat s
             then delete_from pat (Nat.pred (String.length pat)) s'
             else String c (delete_from pat O s')
      end
  end.

Definition delete_all (pat s : string) : string := delete_from pat O s.

(** [str(n)] for an integer *)
Definition of_Z (n : Z) : string := NilZero.string_of_int (Z.to_int n).

End Str.

(** ** Dictionaries *)

Definition dict : Type := list (string * string).

(** [d.get(k)] *)
Fixpoint dict_get (d : dict) (k : string) : option string :=
  match d with
  | [] => None
  | (k', v) :: d' => if String.eqb k' k then Some v else dict_get d' k
  end.

(** [d.get(k, default)] *)
Definition dict_get_default (d : dict) (k default : string) : string :=
  match dict_get d k with
  | Some v => v
  | None => default
  end.

(** [k in d] *)
Definition dict_mem (d : dict) (k : string) : bool :=
  match dict_get d k with
  | Some _ => true
  | None => false
  end.

(** ** Registration date estimator *)

(** A calibration date, the dict literal [{'year': y, 'month': m, 'day': d}]. *)
Record date_info : Type := mkDate {
  d_year : Z;
  d_month : Z;
  d_day : Z
}.

(** The dict [_estimate_registration_date] returns.  The date fields
    hold integers on the normal paths and the string ['Unknown'] on
    the failure path, so they are Python values. *)
Record registration : Type := mkRegistration {
  year : pyval;
  month : pyval;
  day : pyval;
  estimated : bool;
  accuracy : string
}.

Definition id_ranges : list (Z * date_info) :=
  [ (1000, mkDate 2013 8 14);
    (10000, mkDate 2013 9 15);
    (100000, mkDate 2013 11 1);
    (1000000, mkDate 2014 3 1);
    (10000000, mkDate 2015 6 1);
    (50000000, mkDate 2016 6 1);
    (100000000, mkDate 2017 1 1);
    (200000000, mkDate 2017 8 1);
    (400000000, mkDate 2018 6 1);
    (600000000, mkDate 2019 3 1);
    (800000000, mkDate 2019 9 1);
    (1000000000, mkDate 2020 3 1);
    (1200000000, mkDate 2020 8 1);
    (1400000000, mkDate 2021 1 1);
    (1600000000, mkDate 2021 6 1);
    (1800000000, mkDate 2022 1 1);
    (2000000000, mkDate 2022 6 1);
    (2200000000, mkDate 2023 1 1);
    (2400000000, mkDate 2023 6 1);
    (2600000000, mkDate 2024 1 1) ].

(** The date returned "for very new users", after the loop. *)
Definition newest_date : date_info := mkDate 2024 6 1.

(** [{**date_info, 'estimated': True, 'accuracy': 'approximate'}] *)
Definition approximate (d : date_info) : registration :=
  mkRegistration (PInt (d_year d)) (PInt (d_month d)) (PInt (d_day d))
                 true "approximate".

(** The dict of the [except] clause. *)
Definition failed_registration : registration :=
  mkRegistration (PStr "Unknown") (PStr "Unknown") (PStr "Unknown")
                 true "failed".

(** [user_id < threshold] for an integer [threshold]: integers and
    booleans compare by value, [None] and strings raise [TypeError]. *)
Definition py_lt (user_id : pyval) (threshold : Z) : M bool :=
  match user_id with
  | PInt z => ret (z <? threshold)
  | PBool b => ret ((if b then 1 else 0) <? threshold)
  | v => raise (TypeError ("'<' not supported between instances of '"
                           ++ type_name_of v ++ "' and 'int'"))
  end.

(** The loop [for threshold, date_info in id_ranges: ...] followed by
    the return for very new users. *)
Fixpoint scan_id_ranges (user_id : pyval) (ranges : list (Z * date_info))
  : M registration :=
  match ranges with
  | [] => ret (approximate newest_date)
  | (threshold, date_info) :: rest =>
      below <- py_lt user_id threshold ;;
      if below then ret (approximate date_info)
      else scan_id_ranges user_id rest
  end.

Definition registration_handler (e : exn) : M registration :=
  logger_error ("Error estimating registration date: " ++ exn_str e) ;;;
  ret failed_registration.

Definition _estimate_registration_date (user_id : pyval) : M registration :=
  try_except (scan_id_ranges user_id id_ranges) registration_handler.

(** Dates in calendar order. *)
Definition date_le (a b : date_info) : Prop :=
  d_year a < d_year b
  \/ (d_year a = d_year b
      /\ (d_month a < d_month b
          \/ (d_month a = d_month b /\ d_day a <= d_day b))).

Definition date_leb (a b : date_info) : bool :=
  (d_year a <? d_year b)
  || ((d_year a =? d_year b)
      && ((d_month a <? d_month b)
          || ((d_month a =? d_month b) && (d_day a <=? d_day b)))).

(** A calibration table is well formed when its thresholds ascend
    strictly and its dates never go back; [last] is the date that
    follows the table. *)
Fixpoint well_formed (ranges : list (Z * date_info)) (last : date_info) : bool :=
  match ranges with
  | [] => true
  | (t, d) :: rest =>
      match rest with
      | [] => date_leb d last
      | (t', d') :: _ => (t <? t') && date_leb d d' && well_formed rest last
      end
  end.

(** The calibration date the loop settles on for an integer identifier:
    a pure reading of [scan_id_ranges], related to it by [scan_int]. *)
Fixpoint bucket (user_id : Z) (ranges : list (Z * date_info)) : date_info :=
  match ranges with
  | [] => newest_date
  | (threshold, date_info) :: rest =>
      if user_id <? threshold then date_info else bucket user_id rest
  end.

(** ** Country estimator *)

Definition lang_country_map : dict :=
  [
    ("en", "English Speaking Region");
    ("ru", "Russia/CIS Countries");
    ("es", "Spain/Latin America");
    ("pt", "Portugal/Brazil");
    ("fr", "France/Francophone Countries");
    ("de", "Germany/DACH Region");
    ("it", "Italy");
    ("tr", "Turkey");
    ("ar", "Arabic Speaking Countries");
    ("fa", "Iran/Persian Speaking");
    ("hi", "India/Hindi Speaking");
    ("zh", "China/Chinese Speaking");
    ("ja", "Japan");
    ("ko", "South Korea");
    ("uk", "Ukraine");
    ("pl", "Poland");
    ("nl", "Netherlands");
    ("sv", "Sweden");
    ("da", "Denmark");
    ("no", "Norway");
    ("fi", "Finland");
    ("cs", "Czech Republic");
    ("hu", "Hungary");
    ("ro", "Romania");
    ("bg", "Bulgaria");
    ("hr", "Croatia");
    ("sk", "Slovakia");
    ("sl", "Slovenia");
    ("et", "Estonia");
    ("lv", "Latvia");
    ("lt", "Lithuania");
    ("el", "Greece");
    ("he", "Israel");
    ("th", "Thailand");
    ("vi", "Vietnam");
    ("id", "Indonesia");
    ("ms", "Malaysia");
    ("tl", "Philippines");
    ("bn", "Bangladesh/Bengal");
    ("ur", "Pakistan/Urdu Speaking");
    ("ta", "Tamil Speaking Regions");
    ("te", "Telugu Speaking Regions");
    ("ml", "Malayalam Speaking Regions");
    ("kn", "Kannada Speaking Regions");
    ("gu", "Gujarati Speaking Regions");
    ("pa", "Punjabi Speaking Regions");
    ("ne", "Nepal");
    ("si", "Sri Lanka");
    ("my", "Myanmar");
    ("km", "Cambodia");
    ("lo", "Laos");
    ("ka", "Georgia");
    ("hy", "Armenia");
    ("az", "Azerbaijan");
    ("kk", "Kazakhstan");
    ("ky", "Kyrgyzstan");
    ("uz", "Uzbekistan");
    ("tg", "Tajikistan");
    ("tk", "Turkmenistan");
    ("mn", "Mongolia");
    ("be", "Belarus");
    ("mk", "North Macedonia");
    ("sq", "Albania");
    ("sr", "Serbia");
    ("bs", "Bosnia and Herzegovina");
    ("me", "Montenegro");
    ("is", "Iceland");
    ("mt", "Malta");
    ("ga", "Ireland");
    ("cy", "Wales");
    ("gd", "Scotland");
    ("eu", "Basque Region");
    ("ca", "Catalonia");
    ("gl", "Galicia");
    ("af", "South Africa/Afrikaans");
    ("sw", "East Africa/Swahili");
    ("am", "Ethiopia");
    ("zu", "South Africa/Zulu");
    ("xh", "South Africa/Xhosa");
    ("yo", "Nigeria/Yoruba");
    ("ig", "Nigeria/Igbo");
    ("ha", "West Africa/Hausa")
  ].

Definition country_codes : dict :=
  [
    ("1", "USA/Canada");
    ("7", "Russia/Kazakhstan");
    ("20", "Egypt");
    ("27", "South Africa");
    ("30", "Greece");
    ("31", "Netherlands");
    ("32", "Belgium");
    ("33", "France");
    ("34", "Spain");
    ("36", "Hungary");
    ("39", "Italy");
    ("40", "Romania");
    ("41", "Switzerland");
    ("43", "Austria");
    ("44", "United Kingdom");
    ("45", "Denmark");
    ("46", "Sweden");
    ("47", "Norway");
    ("48", "Poland");
    ("49", "Germany");
    ("51", "Peru");
    ("52", "Mexico");
    ("53", "Cuba");
    ("54", "Argentina");
    ("55", "Brazil");
    ("56", "Chile");
    ("57", "Colombia");
    ("58", "Venezuela");
    ("60", "Malaysia");
    ("61", "Australia");
    ("62", "Indonesia");
    ("63", "Philippines");
    ("64", "New Zealand");
    ("65", "Singapore");
    ("66", "Thailand");
    ("81", "Japan");
    ("82", "South Korea");
    ("84", "Vietnam");
    ("86", "China");
    ("90", "Turkey");
    ("91", "India");
    ("92", "Pakistan");
    ("93", "Afghanistan");
    ("94", "Sri Lanka");
    ("95", "Myanmar");
    ("98", "Iran");
    ("212", "Morocco");
    ("213", "Algeria");
    ("216", "Tunisia");
    ("218", "Libya");
    ("220", "Gambia");
    ("221", "Senegal");
    ("222", "Mauritania");
    ("223", "Mali");
    ("224", "Guinea");
    ("225", "Ivory Coast");
    ("226", "Burkina Faso");
    ("227", "Niger");
    ("228", "Togo");
    ("229", "Benin");
    ("230", "Mauritius");
    ("231", "Liberia");
    ("232", "Sierra Leone");
    ("233", "Ghana");
    ("234", "Nigeria");
    ("235", "Chad");
    ("236", "Central African Republic");
    ("237", "Cameroon");
    ("238", "Cape Verde");
    ("239", "S√£o Tom√© and Pr√≠ncipe");
    ("240", "Equatorial Guinea");
    ("241", "Gabon");
    ("242", "Republic of the Congo");
    ("243", "Democratic Republic of the Congo");
    ("244", "Angola");
    ("245", "Guinea-Bissau");
    ("246", "British Indian Ocean Territory");
    ("248", "Seychelles");
    ("249", "Sudan");
    ("250", "Rwanda");
    ("251", "Ethiopia");
    ("252", "Somalia");
    ("253", "Djibouti");
    ("254", "Kenya");
    ("255", "Tanzania");
    ("256", "Uganda");
    ("257", "Burundi");
    ("258", "Mozambique");
    ("260", "Zambia");
    ("261", "Madagascar");
    ("262", "R√©union");
    ("263", "Zimbabwe");
    ("264", "Namibia");
    ("265", "Malawi");
    ("266", "Lesotho");
    ("267", "Botswana");
    ("268", "Eswatini");
    ("269", "Comoros");
    ("290", "Saint Helena");
    ("291", "Eritrea");
    ("297", "Aruba");
    ("298", "Faroe Islands");
    ("299", "Greenland");
    ("350", "Gibraltar");
    ("351", "Portugal");
    ("352", "Luxembourg");
    ("353", "Ireland");
    ("354", "Iceland");
    ("355", "Albania");
    ("356", "Malta");
    ("357", "Cyprus");
    ("358", "Finland");
    ("359", "Bulgaria");
    ("370", "Lithuania");
    ("371", "Latvia");
    ("372", "Estonia");
    ("373", "Moldova");
    ("374", "Armenia");
    ("375", "Belarus");
    ("376", "Andorra");
    ("377", "Monaco");
    ("378", "San Marino");
    ("380", "Ukraine");
    ("381", "Serbia");
    ("382", "Montenegro");
    ("383", "Kosovo");
    ("385", "Croatia");
    ("386", "Slovenia");
    ("387", "Bosnia and Herzegovina");
    ("389", "North Macedonia");
    ("420", "Czech Republic");
    ("421", "Slovakia");
    ("423", "Liechtenstein");
    ("500", "Falkland Islands");
    ("501", "Belize");
    ("502", "Guatemala");
    ("503", "El Salvador");
    ("504", "Honduras");
    ("505", "Nicaragua");
    ("506", "Costa Rica");
    ("507", "Panama");
    ("508", "Saint Pierre and Miquelon");
    ("509", "Haiti");
    ("590", "Guadeloupe");
    ("591", "Bolivia");
    ("592", "Guyana");
    ("593", "Ecuador");
    ("594", "French Guiana");
    ("595", "Paraguay");
    ("596", "Martinique");
    ("597", "Suriname");
    ("598", "Uruguay");
    ("599", "Netherlands Antilles");
    ("670", "East Timor");
    ("672", "Australian External Territories");
    ("673", "Brunei");
    ("674", "Nauru");
    ("675", "Papua New Guinea");
    ("676", "Tonga");
    ("677", "Solomon Islands");
    ("678", "Vanuatu");
    ("679", "Fiji");
    ("680", "Palau");
    ("681", "Wallis and Futuna");
    ("682", "Cook Islands");
    ("683", "Niue");
    ("684", "American Samoa");
    ("685", "Samoa");
    ("686", "Kiribati");
    ("687", "New Caledonia");
    ("688", "Tuvalu");
    ("689", "French Polynesia");
    ("690", "Tokelau");
    ("691", "Federated States of Micronesia");
    ("692", "Marshall Islands");
    ("850", "North Korea");
    ("852", "Hong Kong");
    ("853", "Macau");
    ("855", "Cambodia");
    ("856", "Laos");
    ("880", "Bangladesh");
    ("886", "Taiwan");
    ("960", "Maldives");
    ("961", "Lebanon");
    ("962", "Jordan");
    ("963", "Syria");
    ("964", "Iraq");
    ("965", "Kuwait");
    ("966", "Saudi Arabia");
    ("967", "Yemen");
    ("968", "Oman");
    ("970", "Palestine");
    ("971", "United Arab Emirates");
    ("972", "Israel");
    ("973", "Bahrain");
    ("974", "Qatar");
    ("975", "Bhutan");
    ("976", "Mongolia");
    ("977", "Nepal");
    ("992", "Tajikistan");
    ("993", "Turkmenistan");
    ("994", "Azerbaijan");
    ("995", "Georgia");
    ("996", "Kyrgyzstan");
    ("998", "Uzbekistan")
  ].

(** The outcome of building a string out of a value: the text, or the
    exception that the conversion raises. *)
Inductive formatted : Type :=
| Text (s : string)
| Fails (e : exn).

(** The number of digits beyond which the interpreter refuses to write
    an integer in decimal ([sys.get_int_max_str_digits()], by
    default). *)
Definition int_max_str_digits : nat := 4300.

(** The number of decimal digits of an integer, its sign left out. *)
Definition int_digits (z : Z) : nat := String.length (Str.of_Z (Z.abs z)).

Definition int_too_long (z : Z) : bool :=
  (int_max_str_digits <? int_digits z)%nat.

Definition int_limit_message : string :=
  "Exceeds the limit (4300 digits) for integer string conversion; use sys.set_int_max_str_digits() to increase the limit".

(** [str(z)] for an integer, as the interpreter does it: an integer of
    more than [int_max_str_digits] digits raises ValueError. *)
Definition int_str (z : Z) : formatted :=
  if int_too_long z then Fails (ValueError int_limit_message)
  else Text (Str.of_Z z).

(** [str(v)], and [v] in an f-string without a format
    specification. *)
Definition py_str (v : pyval) : formatted :=
  match v with
  | PNone => Text "None"
  | PBool b => Text (if b then "True" else "False")
  | PInt z => int_str z
  | PStr s => Text s
  end.

(** A conversion inside a method body: its exception is raised
    there. *)
Definition converted (c : formatted) : M string :=
  match c with
  | Text s => ret s
  | Fails e => raise e
  end.

(** The rest of an f-string after one of its fields: a field that
    raises ends it. *)
Definition then_format (c : formatted) (k : string -> formatted) : formatted :=
  match c with
  | Text s => k s
  | Fails e => Fails e
  end.

(** [v.lower()]: only a string has the method. *)
Definition py_lower (v : pyval) : M string :=
  match v with
  | PStr s => ret (Str.lower s)
  | _ => raise (AttributeError ("'" ++ type_name_of v
                                ++ "' object has no attribute 'lower'"))
  end.

(** [len(v)]: only a string has a length. *)
Definition py_len (v : pyval) : M nat :=
  match v with
  | PStr s => ret (String.length s)
  | _ => raise (TypeError ("object of type '" ++ type_name_of v
                           ++ "' has no len()"))
  end.

(** [''.join(filter(str.isdigit, v))]: only a string can be iterated. *)
Definition py_digits (v : pyval) : M string :=
  match v with
  | PStr s => ret (Str.filter Str.isdigit s)
  | _ => raise (TypeError ("'" ++ type_name_of v
                           ++ "' object is not iterable"))
  end.

Definition _country_from_lang_code (lang_code : pyval) : M string :=
  key <- py_lower lang_code ;;
  ret (dict_get_default lang_country_map key "Unknown").

(** The loop [for length in [3, 2, 1]: ...] of [_country_from_phone]
    followed by its [return 'Unknown'], over the table it reads. *)
Fixpoint prefix_lookup (codes : dict) (phone_digits : string)
                       (lengths : list nat) : string :=
  match lengths with
  | [] => "Unknown"
  | length :: rest =>
      if (length <=? String.length phone_digits)%nat then
        let code := Str.take length phone_digits in
        match dict_get codes code with
        | Some country => country
        | None => prefix_lookup codes phone_digits rest
        end
      else prefix_lookup codes phone_digits rest
  end.

Definition _country_from_phone (phone : pyval) : M string :=
  too_short <- (if negb (truthy phone) then ret true
                else n <- py_len phone ;; ret (n <? 2)%nat) ;;
  if (too_short : bool) then ret "Unknown"
  else
    phone_digits <- py_digits phone ;;
    ret (prefix_lookup country_codes phone_digits [3; 2; 1]%nat).

(** ** Last-seen status *)

(** The [was_online] attribute of a status object: a [datetime], or any
    other value. *)
Inductive last_seen_val : Type :=
| LDatetime (d : datetime)
| LValue (v : pyval).

(** A status object, as far as [_get_user_status] looks at it: the name
    of its class and its [was_online] attribute, [None] when it has no
    such attribute. *)
Record status_obj : Type := mkStatus {
  status_type : string;
  was_online : option last_seen_val
}.

(** The account object handed to the estimators.  [id] is always
    there; the other attributes are optional, [None] standing for an
    object without the attribute ([hasattr] is False). *)
Record user_obj : Type := mkUser {
  id : pyval;
  lang_code : option pyval;
  phone : option pyval;
  status : option status_obj
}.

(** "Try language code first" *)
Definition from_language (user : user_obj) : M (option string) :=
  match lang_code user with
  | Some code =>
      if truthy code then
        country <- _country_from_lang_code code ;;
        if negb (String.eqb country "Unknown")
        then ret (Some (country ++ " (from language)"))
        else ret None
      else ret None
  | None => ret None
  end.

(** "Try phone number pattern (if available)" *)
Definition from_phone (user : user_obj) : M (option string) :=
  match phone user with
  | Some number =>
      if truthy number then
        country <- _country_from_phone number ;;
        if negb (String.eqb country "Unknown")
        then ret (Some (country ++ " (from phone)"))
        else ret None
      else ret None
  | None => ret None
  end.

Definition country_body (user : user_obj) : M string :=
  by_language <- from_language user ;;
  match by_language with
  | Some answer => ret answer
  | None =>
      by_phone <- from_phone user ;;
      match by_phone with
      | Some answer => ret answer
      | None => ret "Unknown (Privacy Protected)"
      end
  end.

Definition country_handler (e : exn) : M string :=
  logger_error ("Error estimating country: " ++ exn_str e) ;;;
  ret "Unknown".

Definition _estimate_country (user : user_obj) : M string :=
  try_except (country_body user) country_handler.

(** The chain of comparisons on [diff.days] and [diff.seconds].  The
    counts printed are those of a [timedelta], which Python keeps
    below ten digits, so their conversion never meets the limit on the
    digits of an integer. *)
Definition describe_elapsed (diff : timedelta) : string :=
  if days diff >? 365 then
    "Last seen: " ++ Str.of_Z (days diff / 365) ++ " year(s) ago"
  else if days diff >? 30 then
    "Last seen: " ++ Str.of_Z (days diff / 30) ++ " month(s) ago"
  else if days diff >? 0 then
    "Last seen: " ++ Str.of_Z (days diff) ++ " day(s) ago"
  else if seconds diff >? 3600 then
    "Last seen: " ++ Str.of_Z (seconds diff / 3600) ++ " hour(s) ago"
  else if seconds diff >? 60 then
    "Last seen: " ++ Str.of_Z (seconds diff / 60) ++ " minute(s) ago"
  else "Last seen: Recently".

(** The chain of tests on the class name of a status without
    [was_online]. *)
Definition describe_category (status_type : string) : string :=
  if Str.contains "Online" status_type then "üü¢ Online"
  else if Str.contains "Recently" status_type then "üü° Recently"
  else if Str.contains "LastWeek" status_type then "üü† Within a week"
  else if Str.contains "LastMonth" status_type then "üî¥ Within a month"
  else if Str.contains "Long" status_type then "‚ö´ Long time ago"
  else "Status: " ++ Str.delete_all "UserStatus" status_type.

Definition status_body (user : user_obj) : M string :=
  match status user with
  | Some status =>
      match was_online status with
      | Some last_seen =>
          now <- datetime_now ;;
          match last_seen with
          | LDatetime last_seen =>
              diff <- datetime_sub now (replace_tzinfo_none last_seen) ;;
              ret (describe_elapsed diff)
          | LValue v =>
              shown <- converted (py_str v) ;;
              ret ("Last seen: " ++ shown)
          end
      | None => ret (describe_category (status_type status))
      end
  | None => ret "Unknown"
  end.

Definition status_handler (e : exn) : M string :=
  logger_error ("Error getting user status: " ++ exn_str e) ;;;
  ret "Unknown".

Definition _get_user_status (user : user_obj) : M string :=
  try_except (status_body user) status_handler.

(** ** The analysis record *)

(** [value or default] *)
Definition py_or (v default : pyval) : pyval :=
  if truthy v then v else default.


(** The entries of the dict [user_info] that carry the identifier, the
    two signals of the country estimator and the three estimates, and
    its time stamp (the [datetime] itself, before [isoformat]).  The
    other entries copy flags and profile data that no estimator
    reads. *)
Record user_info : Type := mkUserInfo {
  ui_id : pyval;
  ui_phone : pyval;
  ui_lang_code : pyval;
  ui_registration_date : registration;
  ui_country : string;
  ui_status : string;
  ui_analysis_timestamp : datetime
}.


(** ** Checks on the tables *)

(** No label of a table is the string that the lookups return for a
    miss. *)
Definition no_unknown_label (d : dict) : bool :=
  forallb (fun entry => negb (String.eqb (snd entry) "Unknown")) d.

(** The keys of a dict literal are pairwise distinct, so the order of
    its entries does not matter to a lookup. *)
Fixpoint distinct_keys (d : dict) : bool :=
  match d with
  | [] => true
  | (k, _) :: d' => negb (dict_mem d' k) && distinct_keys d'
  end.

(** The language tag of an account is absent (no attribute, [None] or
    the empty string) or is a string that the language table does not
    list once lowercased. *)
Definition language_unrecognised (user : user_obj) : Prop :=
  match lang_code user with
  | None => True
  | Some PNone => True
  | Some (PStr tag) => dict_get lang_country_map (Str.lower tag) = None
  | Some _ => False
  end.

(** The phone of an account is absent, or is a string for which
    [_country_from_phone] answers ['Unknown']. *)
Definition phone_unrecognised (user : user_obj) : Prop :=
  match phone user with
  | None => True
  | Some PNone => True
  | Some (PStr number) =>
      forall w, value (_country_from_phone (PStr number) w) = Ok "Unknown"
  | Some _ => False
  end.

(** A computation is pure when it returns the same result in every
    world and leaves the world as it found it. *)
Definition pure_comp {A} (c : M A) : Prop :=
  exists r, forall w, c w = (r, w).

(** A table in which a one-, a two- and a three-digit code start with
    the same digits, which no three codes of [country_codes] do. *)
Definition nested_codes : dict :=
  [ ("1", "One"); ("12", "One-Two"); ("123", "One-Two-Three") ].

(** A computation is quiet when it returns the value [a] in every
    world, never raises, and changes nothing of the world but the
    log. *)
Definition quiet {A} (c : M A) (a : A) : Prop :=
  forall w, exists l, c w = (Ok a, mkWorld (clock w) (reads w) l).

(** The world after one reading of the clock. *)
Definition tick (w : world) : world :=
  mkWorld (clock w) (S (reads w)) (log w).

(** A world whose clock stands at [t] microseconds. *)
Definition world_at (t : Z) : world := mkWorld (fun _ => t) O [].

(** An account last seen at the origin of the clock, with an aware
    time stamp in UTC, and nothing else known about it. *)
Definition offline_user : user_obj :=
  mkUser (PInt 42) None None
         (Some (mkStatus "UserStatusOffline"
                         (Some (LDatetime (mkDatetime 0 (Some 0)))))).

(** An account whose identifier is a string and whose language tag is
    an integer: both estimators that read them fail inside. *)
Definition garbled_user : user_obj :=
  mkUser (PStr "durov") (Some (PInt 7)) (Some (PStr "+14155552671"))
         (Some (mkStatus "UserStatusOffline"
                         (Some (LDatetime (mkDatetime 0 (Some 0)))))).

(** The clock of a world is frozen when every reading returns the same
    time. *)
Definition frozen (w : world) : Prop :=
  forall n m, clock w n = clock w m.

(** [first = f(x); second = f(x); return (first, second)] *)
Definition twice {A} (c : M A) : M (A * A) :=
  first <- c ;; second <- c ;; ret (first, second).

(** ** Profile data *)

(** The [photo] attribute of an account: [None], or an object that may
    or may not have a [dc_id]. *)
Inductive photo_val : Type :=
| PhotoNone
| PhotoObj (dc_id : option pyval).

(** The account object with the attributes that [get_user_info] copies
    besides those of [user_obj]; [None] stands for an object without
    the attribute. *)
Record account : Type := mkAccount {
  base : user_obj;
  first_name : option pyval;
  last_name : option pyval;
  username : option pyval;
  bot : option pyval;
  verified : option pyval;
  premium : option pyval;
  fake : option pyval;
  scam : option pyval;
  deleted : option pyval;
  photo : option photo_val
}.

(** The [full_user] attribute of the answer to [GetFullUserRequest]. *)
Record user_full : Type := mkUserFull {
  about : option pyval;
  common_chats_count : option pyval
}.

(** The answer to [GetFullUserRequest], with or without its
    [full_user] attribute. *)
Record full_user_obj : Type := mkFullUser {
  full_user : option user_full
}.

(** [getattr(obj, name, default)] *)
Definition getattr_or (a : option pyval) (default : pyval) : pyval :=
  match a with
  | Some v => v
  | None => default
  end.

(** [v[:n]]: only a string is sliced. *)
Definition py_take (n : nat) (v : pyval) : M string :=
  match v with
  | PStr s => ret (Str.take n s)
  | _ => raise (TypeError ("'" ++ type_name_of v
                           ++ "' object is not subscriptable"))
  end.

Definition _get_dc_id (user : account) : M pyval :=
  try_except
    (match photo user with
     | Some (PhotoObj dc_id) => ret (getattr_or dc_id (PStr "Unknown"))
     | _ => ret (PStr "No Photo")
     end)
    (fun _ => ret (PStr "Unknown")).

Definition _has_profile_photo (user : account) : M string :=
  try_except
    (match photo user with
     | Some (PhotoObj _) => ret "Yes"
     | _ => ret "No"
     end)
    (fun _ => ret "Unknown").

Definition _get_common_chats (full : option full_user_obj) : M pyval :=
  try_except
    (match full with
     | Some answer =>
         match full_user answer with
         | Some inner => ret (getattr_or (common_chats_count inner) (PInt 0))
         | None => ret (PInt 0)
         end
     | None => ret (PInt 0)
     end)
    (fun _ => ret (PInt 0)).

Definition _get_user_bio (full : option full_user_obj) : M pyval :=
  try_except
    (match full with
     | Some answer =>
         match full_user answer with
         | Some inner =>
             let bio := getattr_or (about inner) (PStr "") in
             n <- py_len bio ;;
             if (100 <? n)%nat then
               start <- py_take 100 bio ;;
               ret (PStr (start ++ "..."))
             else ret (py_or bio (PStr "No bio"))
         | None => ret (PStr "No bio")
         end
     | None => ret (PStr "No bio")
     end)
    (fun _ => ret (PStr "No bio")).

(** ** Username input *)

Fixpoint all_isdigit (s : string) : bool :=
  match s with
  | EmptyString => true
  | String c s' => Str.isdigit c && all_isdigit s'
  end.

(** [s.isdigit()]: a non-empty string of digits. *)
Definition str_isdigit (s : string) : bool :=
  negb (String.eqb s "") && all_isdigit s.

(** "Handle username input" in [get_user_info]: a string that is not a
    number loses a leading ['@']. *)
Definition handle_username_input (user_id : pyval) : pyval :=
  match user_id with
  | PStr s =>
      if negb (str_isdigit s) then
        match s with
        | String "@" rest => PStr rest
        | _ => user_id
        end
      else user_id
  | _ => user_id
  end.

(** ** The report *)

(** The dict that [get_user_info] returns on success and
    [format_user_info] reads. *)
Record info_dict : Type := mkInfo {
  i_id : pyval;
  i_first_name : pyval;
  i_last_name : pyval;
  i_username : pyval;
  i_phone : pyval;
  i_is_bot : pyval;
  i_is_verified : pyval;
  i_is_premium : pyval;
  i_is_fake : pyval;
  i_is_scam : pyval;
  i_is_deleted : pyval;
  i_lang_code : pyval;
  i_dc_id : pyval;
  i_registration_date : registration;
  i_country : string;
  i_status : string;
  i_profile_photo : string;
  i_common_chats : pyval;
  i_bio : pyval;
  i_analysis_timestamp : string
}.

Section FullRecord.

(** [datetime.isoformat], left to the Python library. *)
Variable isoformat : datetime -> string.

(** "Extract and compile user information" in [get_user_info], with
    every entry of the dict, evaluated in the order of the literal. *)
Definition compile_info_dict (user : account) (full : option full_user_obj)
  : M info_dict :=
  let e_id := id (base user) in
  let e_first_name := py_or (getattr_or (first_name user) PNone) (PStr "N/A") in
  let e_last_name := py_or (getattr_or (last_name user) PNone) (PStr "N/A") in
  let e_username := py_or (getattr_or (username user) PNone) (PStr "N/A") in
  let e_phone :=
    py_or (getattr_or (phone (base user)) PNone) (PStr "Hidden/Private") in
  let e_is_bot := getattr_or (bot user) (PBool false) in
  let e_is_verified := getattr_or (verified user) (PBool false) in
  let e_is_premium := getattr_or (premium user) (PBool false) in
  let e_is_fake := getattr_or (fake user) (PBool false) in
  let e_is_scam := getattr_or (scam user) (PBool false) in
  let e_is_deleted := getattr_or (deleted user) (PBool false) in
  let e_lang_code := getattr_or (lang_code (base user)) PNone in
  e_dc_id <- _get_dc_id user ;;
  e_registration_date <- _estimate_registration_date (id (base user)) ;;
  e_country <- _estimate_country (base user) ;;
  e_status <- _get_user_status (base user) ;;
  e_profile_photo <- _has_profile_photo user ;;
  e_common_chats <- _get_common_chats full ;;
  e_bio <- _get_user_bio full ;;
  now <- datetime_now ;;
  ret (mkInfo e_id e_first_name e_last_name e_username e_phone
              e_is_bot e_is_verified e_is_premium e_is_fake e_is_scam
              e_is_deleted e_lang_code e_dc_id e_registration_date
              e_country e_status e_profile_photo e_common_chats e_bio
              (isoformat now)).

End FullRecord.

(** [f"{v:02d}"]: an integer is padded with a zero to two characters,
    a boolean counts as 0 or 1, anything else raises; so does an
    integer of too many digits. *)
Definition format_02d (v : pyval) : formatted :=
  match v with
  | PInt z =>
      if int_too_long z then Fails (ValueError int_limit_message)
      else Text (if (0 <=? z) && (z <? 10) then "0" ++ Str.of_Z z
                 else Str.of_Z z)
  | PBool b => Text (if b then "01" else "00")
  | PStr _ => Fails (ValueError "Unknown format code 'd' for object of type 'str'")
  | PNone =>
      Fails (TypeError
               "unsupported format string passed to NoneType.__format__")
  end.

(** The f-string of [date_str]: the year as it is, the month and the
    day with the specification [02d], in this order. *)
Definition format_date_str (reg_date : registration) : formatted :=
  then_format (py_str (year reg_date)) (fun yyyy =>
  then_format (format_02d (month reg_date)) (fun mm =>
  then_format (format_02d (day reg_date)) (fun dd =>
  Text (yyyy ++ "-" ++ mm ++ "-" ++ dd ++ " (Estimated)")))).

(** ['Yes' if v else 'No'] *)
Definition yes_no (v : pyval) : string :=
  if truthy v then "Yes" else "No".

(** The f-string of [message], after [date_str]: its fields are
    converted from left to right. *)
Definition format_user_info (user_info : info_dict) : formatted :=
  then_format (format_date_str (i_registration_date user_info)) (fun date_str =>
  then_format (py_str (i_id user_info)) (fun s_id =>
  then_format (py_str (i_first_name user_info)) (fun s_first_name =>
  then_format (py_str (i_last_name user_info)) (fun s_last_name =>
  then_format (py_str (i_username user_info)) (fun s_username =>
  then_format (py_str (i_phone user_info)) (fun s_phone =>
  then_format (py_str (py_or (i_lang_code user_info) (PStr "Unknown"))) (fun s_lang_code =>
  then_format (py_str (i_common_chats user_info)) (fun s_common_chats =>
  then_format (py_str (i_bio user_info)) (fun s_bio =>
  then_format (py_str (i_dc_id user_info)) (fun s_dc_id =>
  Text (
    "
üîç **User Analysis Report**

**üÜî User ID:** "
    ++ s_id
    ++ "
**üë§ Name:** "
    ++ s_first_name
    ++ " "
    ++ s_last_name
    ++ "
**üìõ Username:** "
    ++ s_username
    ++ "
**üì± Phone:** "
    ++ s_phone
    ++ "
**ü§ñ Is Bot:** "
    ++ yes_no (i_is_bot user_info)
    ++ "
**‚úÖ Verified:** "
    ++ yes_no (i_is_verified user_info)
    ++ "
**üåü Premium:** "
    ++ yes_no (i_is_premium user_info)
    ++ "
**‚ö†Ô∏è Fake/Scam:** "
    ++ yes_no (py_or (i_is_fake user_info) (i_is_scam user_info))
    ++ "
**üóëÔ∏è Deleted:** "
    ++ yes_no (i_is_deleted user_info)
    ++ "
**üåê Language:** "
    ++ s_lang_code
    ++ "
**üåç Country:** "
    ++ i_country user_info
    ++ "
**üìÖ Registration:** "
    ++ date_str
    ++ "
**üñºÔ∏è Profile Photo:** "
    ++ i_profile_photo user_info
    ++ "
**üë• Common Chats:** "
    ++ s_common_chats
    ++ "
**üìú Bio:** "
    ++ s_bio
    ++ "
**üìç Data Center:** "
    ++ s_dc_id
    ++ "
**üïí Last Seen:** "
    ++ i_status user_info
    ++ "
**‚è∞ Analyzed At:** "
    ++ i_analysis_timestamp user_info
    ++ "

‚ö†Ô∏è *Note:* Some information may be approximate or limited due to privacy settings.
    "))))))))))).

(** ** Shapes of strings *)

(** One of the characters 0 to 9. *)
Definition is_decimal (c : ascii) : bool :=
  ((48 <=? Str.code c) && (Str.code c <=? 57))%N.

(** A string of the form YYYY-MM-DD (Estimated), all of Y, M and D
    decimal digits. *)
Definition date_str_shape (s : string) : bool :=
  match s with
  | String y1 (String y2 (String y3 (String y4 (String "-"
      (String m1 (String m2 (String "-" (String d1 (String d2 rest))))))))) =>
      is_decimal y1 && is_decimal y2 && is_decimal y3 && is_decimal y4
      && is_decimal m1 && is_decimal m2 && is_decimal d1 && is_decimal d2
      && String.eqb rest " (Estimated)"
  | _ => false
  end.

(** The dict [d] with its entries for the common chats and the bio
    replaced. *)
Definition with_profile (d : info_dict) (chats bio : pyval) : info_dict :=
  mkInfo (i_id d) (i_first_name d) (i_last_name d) (i_username d) (i_phone d)
         (i_is_bot d) (i_is_verified d) (i_is_premium d) (i_is_fake d)
         (i_is_scam d) (i_is_deleted d) (i_lang_code d) (i_dc_id d)
         (i_registration_date d) (i_country d) (i_status d)
         (i_profile_photo d) chats bio (i_analysis_timestamp d).

(** An account of which only the base attributes are known. *)
Definition bare_account (user : user_obj) : account :=
  mkAccount user None None None None None None None None None None.

(** A stand-in for [datetime.isoformat] in examples: the count of
    microseconds in decimal. *)
Definition micros_text (d : datetime) : string := Str.of_Z (micros d).

(** No key of the table is a proper, non-empty prefix of another key:
    for every key, none of its shorter prefixes is a key. *)
Definition prefix_free (codes : dict) : bool :=
  forallb
    (fun entry =>
       forallb (fun n => negb (dict_mem codes (Str.take n (fst entry))))
               (seq 1 (String.length (fst entry) - 1)))
    codes.

(** The conversion of [v] to a string does not meet the limit on the
    digits of an integer. *)
Definition printable (v : pyval) : bool :=
  match v with
  | PInt z => negb (int_too_long z)
  | _ => true
  end.

(** Every entry of the dict that the report converts with [str] is
    printable. *)
Definition printed_entries_fit (d : info_dict) : bool :=
  printable (i_id d) && printable (i_first_name d)
  && printable (i_last_name d) && printable (i_username d)
  && printable (i_phone d)
  && printable (py_or (i_lang_code d) (PStr "Unknown"))
  && printable (i_common_chats d) && printable (i_bio d)
  && printable (i_dc_id d).

(** The character U+00B9, superscript one: [str.isdigit] accepts it,
    and it is none of 0 to 9. *)
Definition superscript_one : ascii := ascii_of_N 185.

(** An integer of 4301 digits. *)
Definition huge_int : Z := 10 ^ 4300.

(** A world to run the examples in: the clock stands at zero and the
    log is empty. *)
Definition world0 : world := mkWorld (fun _ => 0) O [].

(** * Properties *)

(** ** The scan over the calibration table *)

Section Scan.

Variable ranges : list (Z * date_info).

Lemma scan_int (user_id : Z) (w : world) :
  scan_id_ranges (PInt user_id) ranges w
  = (Ok (approximate (bucket user_id ranges)), w).
Proof.
  induction ranges as [|[t d] rest IH]; simpl.
  - reflexivity.
  - unfold bind, ret; simpl.
    destruct (user_id <? t); [reflexivity | exact IH].
Qed.

(** A scan leaves the world alone, and either settles on a date or
    raises. *)
Lemma scan_cases (user_id : pyval) (w : world) :
  (exists d, scan_id_ranges user_id ranges w = (Ok (approximate d), w))
  \/ (exists e, scan_id_ranges user_id ranges w = (Raise e, w)).
Proof.
  induction ranges as [|[t d] rest IH]; simpl.
  - left. now exists newest_date.
  - unfold bind. destruct user_id as [|b|z|s]; simpl;
      try (right; eexists; reflexivity).
    + destruct ((if b then 1 else 0) <? t); [left; now exists d | exact IH].
    + destruct (z <? t); [left; now exists d | exact IH].
Qed.

Lemma bucket_first_exceeding (user_id : Z) pre t d post :
  ranges = (pre ++ (t, d) :: post)%list ->
  (forall t' d', In (t', d') pre -> t' <= user_id) ->
  user_id < t ->
  bucket user_id ranges = d.
Proof.
  intros -> Hpre Hlt. induction pre as [|[t0 d0] pre IH]; simpl.
  - apply Z.ltb_lt in Hlt. now rewrite Hlt.
  - assert (H0 : t0 <= user_id) by (apply (Hpre t0 d0); now left).
    apply Z.ltb_ge in H0. rewrite H0.
    apply IH. intros t' d' Hin. apply (Hpre t' d'). now right.
Qed.

Lemma bucket_beyond (user_id : Z) :
  (forall t d, In (t, d) ranges -> t <= user_id) ->
  bucket user_id ranges = newest_date.
Proof.
  induction ranges as [|[t0 d0] rest IH]; simpl; intros Hall.
  - reflexivity.
  - assert (H0 : t0 <= user_id) by (apply (Hall t0 d0); now left).
    apply Z.ltb_ge in H0. rewrite H0.
    apply IH. intros t d Hin. apply (Hall t d). now right.
Qed.

End Scan.

(** ** Calendar order *)

Lemma date_leb_le (a b : date_info) : date_leb a b = true <-> date_le a b.
Proof.
  unfold date_leb, date_le.
  rewrite !orb_true_iff, !andb_true_iff, !orb_true_iff, !andb_true_iff.
  rewrite !Z.ltb_lt, !Z.eqb_eq, Z.leb_le. tauto.
Qed.

Lemma date_le_refl (a : date_info) : date_le a a.
Proof. unfold date_le. right. split; [reflexivity|]. right. split; lia. Qed.

Lemma date_le_trans (a b c : date_info) :
  date_le a b -> date_le b c -> date_le a c.
Proof. unfold date_le. intros H1 H2. lia. Qed.

Lemma date_le_year (a b : date_info) : date_le a b -> d_year a <= d_year b.
Proof. unfold date_le. lia. Qed.

(** ** Well-formed calibration tables *)

Lemma well_formed_tail t d rest :
  well_formed ((t, d) :: rest) newest_date = true ->
  well_formed rest newest_date = true.
Proof.
  simpl. destruct rest as [|[t' d'] rest']; [reflexivity|].
  rewrite !andb_true_iff. tauto.
Qed.

(** In a well-formed table every later threshold is larger than the
    first one. *)
Lemma well_formed_head_lt rest : forall t d,
  well_formed ((t, d) :: rest) newest_date = true ->
  forall t' d', In (t', d') rest -> t < t'.
Proof.
  induction rest as [|[t1 d1] rest IH]; intros t d Hwf t' d' Hin.
  - destruct Hin.
  - pose proof Hwf as Hwf'. simpl in Hwf'.
    apply andb_true_iff in Hwf' as [Hhd Htl].
    apply andb_true_iff in Hhd as [Hlt _]. apply Z.ltb_lt in Hlt.
    destruct Hin as [Heq | Hin].
    + now inversion Heq; subst.
    + specialize (IH t1 d1 Htl t' d' Hin). lia.
Qed.

(** ... and no date the scan can settle on afterwards is earlier than
    the first one. *)
Lemma well_formed_head_le rest : forall t d,
  well_formed ((t, d) :: rest) newest_date = true ->
  forall user_id, date_le d (bucket user_id rest).
Proof.
  induction rest as [|[t1 d1] rest IH]; intros t d Hwf user_id.
  - simpl in *. now apply date_leb_le.
  - pose proof Hwf as Hwf'. simpl in Hwf'.
    apply andb_true_iff in Hwf' as [Hhd Htl].
    apply andb_true_iff in Hhd as [_ Hle]. apply date_leb_le in Hle.
    simpl bucket. destruct (user_id <? t1); [exact Hle|].
    eapply date_le_trans; [exact Hle | now apply (IH t1 d1)].
Qed.

Lemma well_formed_split pre : forall t d post,
  well_formed (pre ++ (t, d) :: post)%list newest_date = true ->
  forall t' d', In (t', d') pre -> t' < t.
Proof.
  induction pre as [|[t0 d0] pre IH]; intros t d post Hwf t' d' Hin.
  - destruct Hin.
  - destruct Hin as [Heq | Hin].
    + inversion Heq; subst.
      apply (well_formed_head_lt _ _ _ Hwf t d).
      apply in_or_app. right. now left.
    + exact (IH t d post (well_formed_tail _ _ _ Hwf) t' d' Hin).
Qed.

Lemma bucket_monotone ranges :
  well_formed ranges newest_date = true ->
  forall a b, a <= b -> date_le (bucket a ranges) (bucket b ranges).
Proof.
  induction ranges as [|[t d] rest IH]; intros Hwf a b Hab; simpl.
  - apply date_le_refl.
  - destruct (a <? t) eqn:Ha, (b <? t) eqn:Hb.
    + apply date_le_refl.
    + now apply (well_formed_head_le rest t d).
    + apply Z.ltb_ge in Ha. apply Z.ltb_lt in Hb. lia.
    + apply IH; [exact (well_formed_tail _ _ _ Hwf) | exact Hab].
Qed.

Lemma id_ranges_well_formed : well_formed id_ranges newest_date = true.
Proof. vm_compute. reflexivity. Qed.

Lemma estimate_int (user_id : Z) (w : world) :
  _estimate_registration_date (PInt user_id) w
  = (Ok (approximate (bucket user_id id_ranges)), w).
Proof.
  unfold _estimate_registration_date, try_except.
  now rewrite scan_int.
Qed.


(** ** Registration date estimator: the claims *)

(** C1: for an integer identifier the estimator returns the date of the
    first calibration point, in table order, whose threshold is strictly
    greater than the identifier, with estimated = True and
    accuracy = 'approximate'.  An identifier equal to a threshold gets
    the date of the next calibration point, and an identifier below the
    smallest threshold, 1000, gets the earliest date, 2013-08-14. *)
Theorem registration_first_exceeding_threshold :
  (forall (user_id : Z) (w : world) pre t d post,
      id_ranges = (pre ++ (t, d) :: post)%list ->
      (forall t' d', In (t', d') pre -> t' <= user_id) ->
      user_id < t ->
      _estimate_registration_date (PInt user_id) w
      = (Ok (mkRegistration (PInt (d_year d)) (PInt (d_month d))
                            (PInt (d_day d)) true "approximate"), w))
  /\ (forall (w : world) pre t d t' d' post,
      id_ranges = (pre ++ (t, d) :: (t', d') :: post)%list ->
      _estimate_registration_date (PInt t) w
      = (Ok (mkRegistration (PInt (d_year d')) (PInt (d_month d'))
                            (PInt (d_day d')) true "approximate"), w))
  /\ (forall (user_id : Z) (w : world),
      user_id < 1000 ->
      _estimate_registration_date (PInt user_id) w
      = (Ok (mkRegistration (PInt 2013) (PInt 8) (PInt 14)
                            true "approximate"), w)).
Proof.
  split; [|split].
  - intros user_id w pre t d post Heq Hpre Hlt.
    rewrite estimate_int.
    now rewrite (bucket_first_exceeding id_ranges user_id pre t d post).
  - intros w pre t d t' d' post Heq.
    rewrite estimate_int.
    pose proof id_ranges_well_formed as Hwf.
    assert (Heq' : id_ranges = ((pre ++ [(t, d)]) ++ (t', d') :: post)%list)
      by (rewrite <- app_assoc; exact Heq).
    rewrite (bucket_first_exceeding id_ranges t (pre ++ [(t, d)])%list
               t' d' post Heq'); [reflexivity| |].
    + rewrite Heq in Hwf.
      intros t0 d0 Hin. apply in_app_or in Hin as [Hin | [Hin | []]].
      * apply Z.lt_le_incl. exact (well_formed_split _ _ _ _ Hwf t0 d0 Hin).
      * inversion Hin. lia.
    + rewrite Heq' in Hwf.
      apply (well_formed_split _ _ _ _ Hwf t d).
      apply in_or_app. right. now left.
  - intros user_id w Hlt.
    rewrite estimate_int. simpl.
    apply Z.ltb_lt in Hlt. now rewrite Hlt.
Qed.

Lemma registration_first_exceeding_threshold_witness :
  _estimate_registration_date (PInt 123456) world0
  = (Ok (mkRegistration (PInt 2014) (PInt 3) (PInt 1) true "approximate"),
     world0)
  /\ _estimate_registration_date (PInt 1000) world0
     = (Ok (mkRegistration (PInt 2013) (PInt 9) (PInt 15) true "approximate"),
        world0)
  /\ _estimate_registration_date (PInt 500) world0
     = (Ok (mkRegistration (PInt 2013) (PInt 8) (PInt 14) true "approximate"),
        world0).
Proof.
  destruct registration_first_exceeding_threshold as [Hfirst [Hnext Hlow]].
  split; [|split].
  - apply (Hfirst 123456 world0 (firstn 3 id_ranges) 1000000
             (mkDate 2014 3 1) (skipn 4 id_ranges)).
    + reflexivity.
    + simpl. intros t' d' Hin.
      repeat (destruct Hin as [Hin | Hin]; [inversion Hin; lia|]).
      destruct Hin.
    + lia.
  - apply (Hnext world0 [] 1000 (mkDate 2013 8 14) 10000
             (mkDate 2013 9 15) (skipn 2 id_ranges)).
    reflexivity.
  - apply (Hlow 500 world0). lia.
Defined.

(** C2: the estimated date never goes back as the identifier grows: for
    integer identifiers a < b the date returned for a is, in calendar
    order, at most the date returned for b, and so is the year.  The
    table is such that this holds: its thresholds ascend strictly, its
    dates never go back, and the date after the table is not before
    its last date. *)
Theorem registration_monotone (a b : Z) (w1 w2 : world) :
  a < b ->
  well_formed id_ranges newest_date = true
  /\ exists da db,
      _estimate_registration_date (PInt a) w1 = (Ok (approximate da), w1)
      /\ _estimate_registration_date (PInt b) w2 = (Ok (approximate db), w2)
      /\ date_le da db
      /\ d_year da <= d_year db.
Proof.
  intros Hab. split; [exact id_ranges_well_formed|].
  exists (bucket a id_ranges), (bucket b id_ranges).
  rewrite !estimate_int.
  assert (Hle : date_le (bucket a id_ranges) (bucket b id_ranges))
    by (apply bucket_monotone; [exact id_ranges_well_formed | lia]).
  repeat split; [exact Hle | now apply date_le_year].
Qed.

Lemma registration_monotone_witness :
  well_formed id_ranges newest_date = true
  /\ exists da db,
      _estimate_registration_date (PInt 999) world0
      = (Ok (approximate da), world0)
      /\ _estimate_registration_date (PInt 2600000000) world0
         = (Ok (approximate db), world0)
      /\ date_le da db
      /\ d_year da <= d_year db.
Proof. apply (registration_monotone 999 2600000000 world0 world0). lia. Defined.

(** C5: an integer identifier that is at least every calibration
    threshold gets the date after the table, 2024-06-01, with
    estimated = True and accuracy = 'approximate' like any other
    bucket. *)
Theorem registration_catch_all (user_id : Z) (w : world) :
  (forall t d, In (t, d) id_ranges -> t <= user_id) ->
  _estimate_registration_date (PInt user_id) w
  = (Ok (mkRegistration (PInt 2024) (PInt 6) (PInt 1) true "approximate"), w).
Proof.
  intros Hall. rewrite estimate_int.
  now rewrite (bucket_beyond id_ranges user_id Hall).
Qed.

Lemma registration_catch_all_witness :
  _estimate_registration_date (PInt 3000000000) world0
  = (Ok (mkRegistration (PInt 2024) (PInt 6) (PInt 1) true "approximate"),
     world0).
Proof.
  apply (registration_catch_all 3000000000 world0).
  simpl. intros t d Hin.
  repeat (destruct Hin as [Hin | Hin]; [inversion Hin; lia|]).
  destruct Hin.
Defined.

(** C10: whatever the identifier, the estimator returns a dict whose
    estimated field is True.  That includes the failure branch: an
    identifier that cannot be compared with a threshold (a string,
    None) gives estimated = True with accuracy = 'failed' and the three
    date fields set to 'Unknown'. *)
Theorem registration_always_estimated :
  (forall (user_id : pyval) (w : world),
      exists r w', _estimate_registration_date user_id w = (Ok r, w')
                   /\ estimated r = true)
  /\ (forall (s : string) (w : world),
      value (_estimate_registration_date (PStr s) w)
      = Ok (mkRegistration (PStr "Unknown") (PStr "Unknown") (PStr "Unknown")
                           true "failed"))
  /\ (forall (w : world),
      value (_estimate_registration_date PNone w)
      = Ok (mkRegistration (PStr "Unknown") (PStr "Unknown") (PStr "Unknown")
                           true "failed")).
Proof.
  split; [|split].
  - intros user_id w.
    unfold _estimate_registration_date, try_except.
    destruct (scan_cases id_ranges user_id w) as [[d Hd] | [e He]].
    + rewrite Hd. now exists (approximate d), w.
    + rewrite He. unfold registration_handler, bind, logger_error, ret.
      eexists. eexists. split; reflexivity.
  - intros s w. reflexivity.
  - intros w. reflexivity.
Qed.

(** ** Country estimator: lookups *)

Lemma dict_get_label (d : dict) (k v : string) :
  no_unknown_label d = true ->
  dict_get d k = Some v ->
  String.eqb v "Unknown" = false.
Proof.
  induction d as [|[k' v'] d IH]; simpl; intros Hall Hget.
  - discriminate.
  - apply andb_true_iff in Hall as [Hv Hall].
    destruct (String.eqb k' k).
    + inversion Hget; subst. now apply negb_true_iff.
    + now apply IH.
Qed.

Lemma lang_country_map_labels : no_unknown_label lang_country_map = true.
Proof. vm_compute. reflexivity. Qed.

Lemma country_codes_labels : no_unknown_label country_codes = true.
Proof. vm_compute. reflexivity. Qed.

Lemma lang_country_map_keys : distinct_keys lang_country_map = true.
Proof. vm_compute. reflexivity. Qed.

Lemma country_codes_keys : distinct_keys country_codes = true.
Proof. vm_compute. reflexivity. Qed.

Lemma lang_country_map_no_empty_key : dict_get lang_country_map "" = None.
Proof. vm_compute. reflexivity. Qed.

(** From here on the tables are looked up by evaluation only. *)
Opaque lang_country_map country_codes.

(** The loop returns the label of the first length that hits. *)
Lemma prefix_lookup_first_hit (codes : dict) (digits : string) :
  forall (lengths before : list nat) (n : nat) (after : list nat) country,
    lengths = (before ++ n :: after)%list ->
    (forall m, In m before ->
               (m <= String.length digits)%nat ->
               dict_get codes (Str.take m digits) = None) ->
    (n <= String.length digits)%nat ->
    dict_get codes (Str.take n digits) = Some country ->
    prefix_lookup codes digits lengths = country.
Proof.
  intros lengths before. revert lengths.
  induction before as [|m before IH];
    intros lengths n after country -> Hbefore Hlen Hhit; simpl.
  - apply Nat.leb_le in Hlen. now rewrite Hlen, Hhit.
  - destruct (m <=? String.length digits)%nat eqn:Hm.
    + rewrite (Hbefore m (or_introl eq_refl)) by now apply Nat.leb_le.
      eapply IH; eauto. intros m' Hin. apply Hbefore. now right.
    + eapply IH; eauto. intros m' Hin. apply Hbefore. now right.
Qed.

Lemma prefix_lookup_no_hit (codes : dict) (digits : string) (lengths : list nat) :
  (forall m, In m lengths ->
             (m <= String.length digits)%nat ->
             dict_get codes (Str.take m digits) = None) ->
  prefix_lookup codes digits lengths = "Unknown".
Proof.
  induction lengths as [|m lengths IH]; simpl; intros Hall.
  - reflexivity.
  - destruct (m <=? String.length digits)%nat eqn:Hm.
    + rewrite (Hall m (or_introl eq_refl)) by now apply Nat.leb_le.
      apply IH. intros m' Hin. apply Hall. now right.
    + apply IH. intros m' Hin. apply Hall. now right.
Qed.

Lemma filter_length (f : ascii -> bool) (s : string) :
  (String.length (Str.filter f s) <= String.length s)%nat.
Proof.
  induction s as [|c s IH]; simpl; [lia|].
  destruct (f c); simpl; lia.
Qed.

(** On a string [_country_from_phone] neither raises nor touches the
    world: it answers ['Unknown'] for fewer than two characters and
    runs the loop on the digits otherwise. *)
Lemma country_from_phone_str (number : string) (w : world) :
  _country_from_phone (PStr number) w
  = (Ok (if (String.length number <? 2)%nat then "Unknown"
         else prefix_lookup country_codes
                (Str.filter Str.isdigit number) [3; 2; 1]%nat), w).
Proof.
  unfold _country_from_phone, bind, ret, py_len, py_digits, truthy.
  destruct number as [|c number]; [reflexivity|].
  change (String.eqb (String c number) "") with false.
  cbv beta iota delta [negb ret bind].
  destruct (String.length (String c number) <? 2)%nat; reflexivity.
Qed.

Lemma country_from_lang_code_str (tag : string) (w : world) :
  _country_from_lang_code (PStr tag) w
  = (Ok (dict_get_default lang_country_map (Str.lower tag) "Unknown"), w).
Proof. reflexivity. Qed.

(** ** Pure computations *)

Lemma pure_ret {A} (a : A) : pure_comp (ret a).
Proof. now exists (Ok a). Qed.

Lemma pure_raise {A} (e : exn) : pure_comp (@raise A e).
Proof. now exists (Raise e). Qed.

Lemma pure_bind {A B} (c : M A) (k : A -> M B) :
  pure_comp c -> (forall a, pure_comp (k a)) -> pure_comp (bind c k).
Proof.
  intros [r Hr] Hk. destruct r as [a | e].
  - destruct (Hk a) as [r' Hr']. exists r'. intros w.
    unfold bind. now rewrite Hr, Hr'.
  - exists (Raise e). intros w. unfold bind. now rewrite Hr.
Qed.

Create HintDb pure.
#[local] Hint Resolve pure_ret pure_raise : pure.

Lemma pure_py_lower v : pure_comp (py_lower v).
Proof. destruct v; simpl; auto with pure. Qed.

Lemma pure_py_len v : pure_comp (py_len v).
Proof. destruct v; simpl; auto with pure. Qed.

Lemma pure_py_digits v : pure_comp (py_digits v).
Proof. destruct v; simpl; auto with pure. Qed.

Lemma pure_country_from_lang_code v : pure_comp (_country_from_lang_code v).
Proof.
  unfold _country_from_lang_code.
  apply pure_bind; [apply pure_py_lower | intros; apply pure_ret].
Qed.

Lemma pure_country_from_phone v : pure_comp (_country_from_phone v).
Proof.
  unfold _country_from_phone.
  apply pure_bind.
  - destruct (negb (truthy v)); [apply pure_ret|].
    apply pure_bind; [apply pure_py_len | intros; apply pure_ret].
  - intros [|]; [apply pure_ret|].
    apply pure_bind; [apply pure_py_digits | intros; apply pure_ret].
Qed.

Lemma pure_from_language user : pure_comp (from_language user).
Proof.
  unfold from_language.
  destruct (lang_code user) as [code|]; [|apply pure_ret].
  destruct (truthy code); [|apply pure_ret].
  apply pure_bind; [apply pure_country_from_lang_code|].
  intros country. destruct (negb _); apply pure_ret.
Qed.

Lemma pure_from_phone user : pure_comp (from_phone user).
Proof.
  unfold from_phone.
  destruct (phone user) as [number|]; [|apply pure_ret].
  destruct (truthy number); [|apply pure_ret].
  apply pure_bind; [apply pure_country_from_phone|].
  intros country. destruct (negb _); apply pure_ret.
Qed.

Lemma pure_country_body user : pure_comp (country_body user).
Proof.
  unfold country_body.
  apply pure_bind; [apply pure_from_language|].
  intros [answer|]; [apply pure_ret|].
  apply pure_bind; [apply pure_from_phone|].
  intros [answer|]; apply pure_ret.
Qed.

Lemma pure_scan_id_ranges user_id ranges :
  pure_comp (scan_id_ranges user_id ranges).
Proof.
  induction ranges as [|[t d] rest IH]; simpl; [apply pure_ret|].
  apply pure_bind.
  - destruct user_id; simpl; auto with pure.
  - intros [|]; [apply pure_ret | exact IH].
Qed.

Lemma try_except_ext {A} (body1 body2 : M A) (handler : exn -> M A) (fallback : A) :
  pure_comp body1 ->
  (forall w, body1 w = body2 w) ->
  (forall e w, value (handler e w) = Ok fallback) ->
  forall w1 w2,
    value (try_except body1 handler w1) = value (try_except body2 handler w2).
Proof.
  intros [r Hr] Heq Hh w1 w2. unfold try_except.
  rewrite <- (Heq w2), !Hr.
  destruct r as [a | e]; [reflexivity|].
  now rewrite !Hh.
Qed.

Lemma country_handler_value e w : value (country_handler e w) = Ok "Unknown".
Proof. reflexivity. Qed.

(** ** Country estimator: the two steps *)

Lemma from_language_hit user w tag label :
  lang_code user = Some (PStr tag) ->
  dict_get lang_country_map (Str.lower tag) = Some label ->
  from_language user w = (Ok (Some (label ++ " (from language)")), w).
Proof.
  intros Hlang Hget. unfold from_language. rewrite Hlang.
  destruct tag as [|c tag].
  - change (Str.lower "") with "" in Hget.
    rewrite lang_country_map_no_empty_key in Hget. discriminate.
  - change (truthy (PStr (String c tag))) with true. cbv iota.
    unfold bind. rewrite country_from_lang_code_str.
    unfold dict_get_default. rewrite Hget.
    now rewrite (dict_get_label _ _ _ lang_country_map_labels Hget).
Qed.

Lemma from_language_miss user w :
  language_unrecognised user -> from_language user w = (Ok None, w).
Proof.
  unfold language_unrecognised, from_language.
  destruct (lang_code user) as [[| b | z | tag]|]; try tauto; try reflexivity.
  intros Hget. destruct tag as [|c tag]; [reflexivity|].
  change (truthy (PStr (String c tag))) with true. cbv iota.
  unfold bind. rewrite country_from_lang_code_str.
  unfold dict_get_default. now rewrite Hget.
Qed.

Lemma truthy_nonempty (c : ascii) (s : string) : truthy (PStr (String c s)) = true.
Proof. reflexivity. Qed.

Lemma from_phone_str user w number :
  phone user = Some (PStr number) ->
  exists label,
    value (_country_from_phone (PStr number) w) = Ok label
    /\ from_phone user w
       = (Ok (if String.eqb label "Unknown" then None
              else Some (label ++ " (from phone)")), w).
Proof.
  intros Hphone. unfold from_phone. rewrite Hphone.
  rewrite country_from_phone_str. unfold value, fst.
  destruct number as [|c number].
  - exists "Unknown". split; reflexivity.
  - rewrite truthy_nonempty. unfold bind.
    rewrite country_from_phone_str.
    set (label := if (String.length (String c number) <? 2)%nat
                  then "Unknown" else _).
    exists label. split; [reflexivity|].
    unfold ret. now destruct (String.eqb label "Unknown").
Qed.

Lemma from_phone_hit user w number label :
  phone user = Some (PStr number) ->
  value (_country_from_phone (PStr number) w) = Ok label ->
  label <> "Unknown" ->
  from_phone user w = (Ok (Some (label ++ " (from phone)")), w).
Proof.
  intros Hphone Hval Hlabel.
  destruct (from_phone_str user w number Hphone) as [label' [Hval' ->]].
  assert (label' = label) as -> by congruence.
  apply String.eqb_neq in Hlabel. now rewrite Hlabel.
Qed.

Lemma from_phone_miss user w :
  phone_unrecognised user -> from_phone user w = (Ok None, w).
Proof.
  unfold phone_unrecognised.
  destruct (phone user) as [[| b | z | number]|] eqn:Hphone; try tauto;
    try (intros _; unfold from_phone; rewrite Hphone; reflexivity).
  intros Hval. specialize (Hval w).
  destruct (from_phone_str user w number Hphone) as [label' [Hval' ->]].
  assert (label' = "Unknown") as -> by congruence.
  reflexivity.
Qed.

(** C3: the country estimator tries the language first.  A language tag
    that, lowercased, is a key of the language table gives the label of
    that key with the suffix ' (from language)', whatever the phone
    attribute holds; with the language tag absent or not in the table,
    a phone string for which the phone lookup finds a country gives
    that country with the suffix ' (from phone)'; and when neither
    step finds anything the answer is 'Unknown (Privacy Protected)'. *)
Theorem country_precedence :
  (forall (user : user_obj) (w : world) (tag label : string),
      lang_code user = Some (PStr tag) ->
      dict_get lang_country_map (Str.lower tag) = Some label ->
      _estimate_country user w = (Ok (label ++ " (from language)"), w))
  /\ (forall (user : user_obj) (w : world) (number label : string),
      language_unrecognised user ->
      phone user = Some (PStr number) ->
      value (_country_from_phone (PStr number) w) = Ok label ->
      label <> "Unknown" ->
      _estimate_country user w = (Ok (label ++ " (from phone)"), w))
  /\ (forall (user : user_obj) (w : world),
      language_unrecognised user ->
      phone_unrecognised user ->
      _estimate_country user w = (Ok "Unknown (Privacy Protected)", w)).
Proof.
  split; [|split].
  - intros user w tag label Hlang Hget.
    unfold _estimate_country, try_except, country_body, bind.
    now rewrite (from_language_hit user w tag label Hlang Hget).
  - intros user w number label Hlang Hphone Hval Hlabel.
    unfold _estimate_country, try_except, country_body, bind.
    rewrite (from_language_miss user w Hlang).
    now rewrite (from_phone_hit user w number label Hphone Hval Hlabel).
  - intros user w Hlang Hphone.
    unfold _estimate_country, try_except, country_body, bind.
    rewrite (from_language_miss user w Hlang).
    now rewrite (from_phone_miss user w Hphone).
Qed.

Lemma country_precedence_witness :
  _estimate_country
    (mkUser (PInt 42) (Some (PStr "EN")) (Some (PStr "+14155552671")) None)
    world0
  = (Ok "English Speaking Region (from language)", world0)
  /\ _estimate_country
       (mkUser (PInt 42) (Some (PStr "xx")) (Some (PStr "+33 1 42 68 53 00")) None)
       world0
     = (Ok "France (from phone)", world0)
  /\ _estimate_country (mkUser (PInt 42) None None None) world0
     = (Ok "Unknown (Privacy Protected)", world0).
Proof.
  destruct country_precedence as [Hlang [Hphone Hnone]].
  split; [|split].
  - apply (Hlang _ world0 "EN" "English Speaking Region");
      [reflexivity | vm_compute; reflexivity].
  - apply (Hphone _ world0 "+33 1 42 68 53 00" "France").
    + vm_compute. reflexivity.
    + reflexivity.
    + vm_compute. reflexivity.
    + discriminate.
  - apply (Hnone _ world0); exact I.
Defined.

(** ** Phone prefixes *)

Lemma country_from_phone_long (number : string) (w : world) :
  (2 <= String.length number)%nat ->
  _country_from_phone (PStr number) w
  = (Ok (prefix_lookup country_codes
           (Str.filter Str.isdigit number) [3; 2; 1]%nat), w).
Proof.
  intros Hlen. rewrite country_from_phone_str.
  apply Nat.ltb_ge in Hlen. now rewrite Hlen.
Qed.

(** C4: the phone lookup tries the first 3, then the first 2, then the
    first digit of the digits of the phone, and the first of these
    lengths whose prefix is a key of the table gives the answer
    ('Unknown' when none is).  So
    when the first 1, 2 and 3 digits are all keys the 3-digit key wins,
    and the phone '+14155552671' next to the unknown language tag 'xx'
    gives 'USA/Canada (from phone)' through the key '1', since neither
    '141' nor '14' is a key. *)
Theorem phone_prefix_longest_first :
  (forall (codes : dict) (digits : string) (before : list nat) (n : nat)
          (after : list nat) (country : string),
      [3; 2; 1]%nat = (before ++ n :: after)%list ->
      (forall m, In m before ->
                 (m <= String.length digits)%nat ->
                 dict_get codes (Str.take m digits) = None) ->
      (n <= String.length digits)%nat ->
      dict_get codes (Str.take n digits) = Some country ->
      prefix_lookup codes digits [3; 2; 1]%nat = country)
  /\ (forall (codes : dict) (digits : string),
      (forall m, In m [3; 2; 1]%nat ->
                 (m <= String.length digits)%nat ->
                 dict_get codes (Str.take m digits) = None) ->
      prefix_lookup codes digits [3; 2; 1]%nat = "Unknown")
  /\ (forall (codes : dict) (digits c1 c2 c3 : string),
      (3 <= String.length digits)%nat ->
      dict_get codes (Str.take 1 digits) = Some c1 ->
      dict_get codes (Str.take 2 digits) = Some c2 ->
      dict_get codes (Str.take 3 digits) = Some c3 ->
      prefix_lookup codes digits [3; 2; 1]%nat = c3)
  /\ (forall (number : string) (w : world),
      (2 <= String.length number)%nat ->
      _country_from_phone (PStr number) w
      = (Ok (prefix_lookup country_codes
               (Str.filter Str.isdigit number) [3; 2; 1]%nat), w))
  /\ (forall (number : string) (w : world) (country : string),
      (3 <= String.length (Str.filter Str.isdigit number))%nat ->
      dict_get country_codes (Str.take 3 (Str.filter Str.isdigit number))
      = Some country ->
      _country_from_phone (PStr number) w = (Ok country, w))
  /\ (forall (ident : pyval) (st : option status_obj) (w : world),
      _estimate_country
        (mkUser ident (Some (PStr "xx")) (Some (PStr "+14155552671")) st) w
      = (Ok "USA/Canada (from phone)", w))
  /\ dict_get country_codes "141" = None
  /\ dict_get country_codes "14" = None
  /\ dict_get country_codes "1" = Some "USA/Canada".
Proof.
  repeat match goal with |- _ /\ _ => split end.
  - intros codes digits before n after country Hsplit Hbefore Hlen Hhit.
    exact (prefix_lookup_first_hit codes digits _ before n after country
             Hsplit Hbefore Hlen Hhit).
  - intros codes digits Hnone.
    exact (prefix_lookup_no_hit codes digits _ Hnone).
  - intros codes digits c1 c2 c3 Hlen _ _ H3.
    apply (prefix_lookup_first_hit codes digits _ [] 3%nat [2; 1]%nat c3);
      [reflexivity | intros m [] | exact Hlen | exact H3].
  - exact country_from_phone_long.
  - intros number w country Hlen H3.
    rewrite country_from_phone_long.
    + f_equal. f_equal.
      apply (prefix_lookup_first_hit _ _ _ [] 3%nat [2; 1]%nat country);
        [reflexivity | intros m [] | exact Hlen | exact H3].
    + pose proof (filter_length Str.isdigit number). lia.
  - intros ident st w.
    unfold _estimate_country, try_except, country_body, bind.
    rewrite from_language_miss by (vm_compute; reflexivity).
    rewrite (from_phone_hit _ w "+14155552671" "USA/Canada");
      [reflexivity | reflexivity | vm_compute; reflexivity | discriminate].
  - vm_compute; reflexivity.
  - vm_compute; reflexivity.
  - vm_compute; reflexivity.
Qed.

Lemma phone_prefix_longest_first_witness :
  prefix_lookup country_codes "4915112345678" [3; 2; 1]%nat = "Germany"
  /\ prefix_lookup nested_codes "1234" [3; 2; 1]%nat = "One-Two-Three"
  /\ _country_from_phone (PStr "+212 661-000-000") world0
     = (Ok "Morocco", world0).
Proof.
  destruct phone_prefix_longest_first as [Hfirst [_ [Hthree [_ [Hphone _]]]]].
  split; [|split].
  - apply (Hfirst country_codes "4915112345678" [3%nat] 2%nat [1%nat]).
    + reflexivity.
    + intros m [<- | []] _. vm_compute. reflexivity.
    + simpl. lia.
    + vm_compute. reflexivity.
  - apply (Hthree nested_codes "1234" "One" "One-Two" "One-Two-Three");
      [simpl; lia | reflexivity | reflexivity | reflexivity].
  - apply (Hphone "+212 661-000-000" world0 "Morocco").
    + vm_compute. lia.
    + vm_compute. reflexivity.
Defined.

(** C8, as the code has it: two phone strings of at least two
    characters each that hold the same characters accepted by
    [str.isdigit], in the same order, get the same answer from the
    phone lookup, and so from the country estimator when everything
    else about the account is the same.  A phone string of fewer than
    two characters is turned down before its digits are looked at: the
    lookup answers 'Unknown', the phone step finds nothing, and
    without a recognised language the estimate is 'Unknown (Privacy
    Protected)'. *)
Theorem phone_result_by_digits :
  (forall (p q : string) (w1 w2 : world),
      (2 <= String.length p)%nat ->
      (2 <= String.length q)%nat ->
      Str.filter Str.isdigit p = Str.filter Str.isdigit q ->
      value (_country_from_phone (PStr p) w1)
      = value (_country_from_phone (PStr q) w2)
      /\ forall (ident : pyval) (lang : option pyval) (st : option status_obj),
          value (_estimate_country (mkUser ident lang (Some (PStr p)) st) w1)
          = value (_estimate_country (mkUser ident lang (Some (PStr q)) st) w2))
  /\ (forall (p : string) (w : world),
      (String.length p < 2)%nat ->
      _country_from_phone (PStr p) w = (Ok "Unknown", w)
      /\ forall user : user_obj,
          phone user = Some (PStr p) ->
          from_phone user w = (Ok None, w)
          /\ (language_unrecognised user ->
              _estimate_country user w
              = (Ok "Unknown (Privacy Protected)", w))).
Proof.
  split.
  - intros p q w1 w2 Hp Hq Hdigits.
    assert (Hsame : forall w, _country_from_phone (PStr p) w
                              = _country_from_phone (PStr q) w)
      by (intros w; rewrite !country_from_phone_long by assumption;
          now rewrite Hdigits).
    split.
    + rewrite !country_from_phone_long by assumption. now rewrite Hdigits.
    + intros ident lang st.
      apply (try_except_ext _ _ _ "Unknown");
        [apply pure_country_body | | apply country_handler_value].
      intros w. unfold country_body, bind.
      change (from_language (mkUser ident lang (Some (PStr q)) st))
        with (from_language (mkUser ident lang (Some (PStr p)) st)).
      destruct (from_language _ w) as [[[answer|] | e] w']; try reflexivity.
      unfold from_phone, phone.
      destruct p as [|cp p]; [simpl in Hp; lia|].
      destruct q as [|cq q]; [simpl in Hq; lia|].
      rewrite !truthy_nonempty. unfold bind. now rewrite Hsame.
  - intros p w Hshort.
    assert (Hunknown : _country_from_phone (PStr p) w = (Ok "Unknown", w)).
    { rewrite country_from_phone_str.
      apply Nat.ltb_lt in Hshort. now rewrite Hshort. }
    split; [exact Hunknown|].
    intros user Hphone.
    assert (Hstep : from_phone user w = (Ok None, w)).
    { apply from_phone_miss. unfold phone_unrecognised. rewrite Hphone.
      intros w0. rewrite country_from_phone_str.
      apply Nat.ltb_lt in Hshort. now rewrite Hshort. }
    split; [exact Hstep|].
    intros Hlang.
    unfold _estimate_country, try_except, country_body, bind.
    now rewrite (from_language_miss user w Hlang), Hstep.
Qed.

Lemma phone_result_by_digits_witness :
  (value (_country_from_phone (PStr "+1 (415) 555-2671") world0)
   = value (_country_from_phone (PStr "1.415.555.2671") world0)
   /\ forall (ident : pyval) (lang : option pyval) (st : option status_obj),
       value (_estimate_country
                (mkUser ident lang (Some (PStr "+1 (415) 555-2671")) st) world0)
       = value (_estimate_country
                  (mkUser ident lang (Some (PStr "1.415.555.2671")) st) world0))
  /\ _country_from_phone (PStr "7") world0 = (Ok "Unknown", world0)
  /\ from_phone (mkUser (PInt 42) None (Some (PStr "7")) None) world0
     = (Ok None, world0)
  /\ _estimate_country (mkUser (PInt 42) None (Some (PStr "7")) None) world0
     = (Ok "Unknown (Privacy Protected)", world0).
Proof.
  destruct phone_result_by_digits as [Hlong Hshort].
  split; [|split; [|split]].
  - apply (Hlong "+1 (415) 555-2671" "1.415.555.2671" world0 world0).
    + simpl. lia.
    + simpl. lia.
    + vm_compute. reflexivity.
  - apply (Hshort "7" world0). simpl. lia.
  - apply (Hshort "7" world0); [simpl; lia | reflexivity].
  - apply (Hshort "7" world0); [simpl; lia | reflexivity | exact I].
Defined.

(** C8, as stated, fails, in two ways.  The phones '1' and '+1' hold
    the same digits, yet the lookup answers 'Unknown' for the first,
    which is shorter than two characters, and 'USA/Canada' for the
    second.  And the phone made of a superscript one and '44' holds the
    same characters 0 to 9 as '44' and both have two characters or
    more, yet the lookup answers 'Unknown' for the first, whose
    superscript is kept by [str.isdigit], and 'United Kingdom' for the
    second. *)
Lemma phone_result_not_by_digits_alone :
  (Str.filter Str.isdigit "1" = Str.filter Str.isdigit "+1"
   /\ value (_country_from_phone (PStr "1") world0) = Ok "Unknown"
   /\ value (_country_from_phone (PStr "+1") world0) = Ok "USA/Canada"
   /\ value (_estimate_country (mkUser (PInt 42) None (Some (PStr "1")) None)
                               world0)
      = Ok "Unknown (Privacy Protected)"
   /\ value (_estimate_country (mkUser (PInt 42) None (Some (PStr "+1")) None)
                               world0)
      = Ok "USA/Canada (from phone)"
   /\ ~ (forall (p q : string) (w : world),
          p <> "" -> q <> "" ->
          Str.filter Str.isdigit p = Str.filter Str.isdigit q ->
          value (_country_from_phone (PStr p) w)
          = value (_country_from_phone (PStr q) w)))
  /\ (Str.filter is_decimal (String superscript_one "44")
      = Str.filter is_decimal "44"
      /\ value (_country_from_phone (PStr (String superscript_one "44")) world0)
         = Ok "Unknown"
      /\ value (_country_from_phone (PStr "44") world0) = Ok "United Kingdom"
      /\ ~ (forall (p q : string) (w : world),
             (2 <= String.length p)%nat -> (2 <= String.length q)%nat ->
             Str.filter is_decimal p = Str.filter is_decimal q ->
             value (_country_from_phone (PStr p) w)
             = value (_country_from_phone (PStr q) w))).
Proof.
  split.
  - do 5 (split; [vm_compute; reflexivity|]).
    intros Hall.
    specialize (Hall "1" "+1" world0).
    assert (Hneq : value (_country_from_phone (PStr "1") world0)
                   <> value (_country_from_phone (PStr "+1") world0))
      by (vm_compute; discriminate).
    apply Hneq, Hall; [discriminate | discriminate | reflexivity].
  - do 3 (split; [vm_compute; reflexivity|]).
    intros Hall.
    specialize (Hall (String superscript_one "44") "44" world0).
    assert (Hneq : value (_country_from_phone
                            (PStr (String superscript_one "44")) world0)
                   <> value (_country_from_phone (PStr "44") world0))
      by (vm_compute; discriminate).
    apply Hneq, Hall; [simpl; lia | simpl; lia | vm_compute; reflexivity].
Qed.

(** ** Handlers and quiet computations *)

Lemma world_eta (w : world) : mkWorld (clock w) (reads w) (log w) = w.
Proof. now destruct w. Qed.

Lemma quiet_registration_handler e :
  quiet (registration_handler e) failed_registration.
Proof. intros w. eexists. reflexivity. Qed.

Lemma quiet_country_handler e : quiet (country_handler e) "Unknown".
Proof. intros w. eexists. reflexivity. Qed.

(** A [try] around a pure body whose handler is quiet is quiet: it
    returns the value of the body, or the fallback of the handler when
    the body raises. *)
Lemma quiet_try_except {A} (body : M A) (handler : exn -> M A) (fallback : A) :
  pure_comp body ->
  (forall e, quiet (handler e) fallback) ->
  exists a, quiet (try_except body handler) a
            /\ ((forall w, body w = (Ok a, w))
                \/ (a = fallback /\ exists e, forall w, body w = (Raise e, w))).
Proof.
  intros [r Hr] Hh. destruct r as [a | e].
  - exists a. split; [|now left].
    intros w. exists (log w). unfold try_except.
    now rewrite Hr, world_eta.
  - exists fallback. split; [|right; split; [reflexivity | now exists e]].
    intros w. unfold try_except. rewrite Hr. apply Hh.
Qed.

Lemma quiet_value {A} (c : M A) (a : A) :
  quiet c a -> forall w, value (c w) = Ok a.
Proof. intros Hq w. destruct (Hq w) as [l ->]. reflexivity. Qed.

Lemma quiet_estimate_registration_date user_id :
  exists r, quiet (_estimate_registration_date user_id) r.
Proof.
  destruct (quiet_try_except (scan_id_ranges user_id id_ranges)
              registration_handler failed_registration
              (pure_scan_id_ranges _ _) quiet_registration_handler)
    as [r [Hq _]].
  now exists r.
Qed.

Lemma quiet_estimate_country user :
  exists c, quiet (_estimate_country user) c.
Proof.
  destruct (quiet_try_except (country_body user) country_handler "Unknown"
              (pure_country_body _) quiet_country_handler)
    as [c [Hq _]].
  now exists c.
Qed.

(** ** Last-seen status *)

(** The classifier reads the clock at most once, and its label is a
    function of that reading.  The one exception it can meet, an
    integer [was_online] of too many digits, is caught and logged. *)
Lemma get_user_status_run user w :
  _get_user_status user w
  = match status user with
    | Some st =>
        match was_online st with
        | Some (LDatetime ts) =>
            (Ok (describe_elapsed
                   (timedelta_of_micros (clock w (reads w) - micros ts))),
             tick w)
        | Some (LValue v) =>
            match py_str v with
            | Text shown => (Ok ("Last seen: " ++ shown), tick w)
            | Fails e =>
                (Ok "Unknown",
                 mkWorld (clock w) (S (reads w))
                   (log w ++ [("Error getting user status: "
                               ++ exn_str e)%string])%list)
            end
        | None => (Ok (describe_category (status_type st)), w)
        end
    | None => (Ok "Unknown", w)
    end.
Proof.
  unfold _get_user_status, try_except, status_body.
  destruct (status user) as [st|]; [|reflexivity].
  destruct (was_online st) as [[ts | v]|]; try reflexivity.
  unfold bind, datetime_now, converted.
  destruct (py_str v); reflexivity.
Qed.

Lemma get_user_status_ok user w :
  exists label w',
    _get_user_status user w = (Ok label, w') /\ clock w' = clock w.
Proof.
  rewrite get_user_status_run.
  destruct (status user) as [st|]; [|eauto].
  destruct (was_online st) as [[ts | v]|]; eauto.
  destruct (py_str v); eauto.
Qed.

Lemma get_user_status_frozen user w1 w2 :
  clock w1 (reads w1) = clock w2 (reads w2) ->
  value (_get_user_status user w1) = value (_get_user_status user w2).
Proof.
  intros Hclock. rewrite !get_user_status_run.
  destruct (status user) as [st|]; [|reflexivity].
  destruct (was_online st) as [[ts | v]|]; try reflexivity.
  - unfold value, fst. now rewrite Hclock.
  - destruct (py_str v); reflexivity.
Qed.

Lemma gtb_true (a b : Z) : b < a -> (a >? b) = true.
Proof. intros H. now apply Z.gtb_lt. Qed.

Lemma gtb_false (a b : Z) : a <= b -> (a >? b) = false.
Proof. intros H. rewrite Z.gtb_ltb. now apply Z.ltb_ge. Qed.

(** C6: for a status whose was_online is a datetime the classifier
    takes elapsed = now - was_online, splits it into whole days and
    the seconds left within the day, and answers by the first rule
    that applies: more than 365 days, years (days div 365); more than
    30 days, months (days div 30); more than 0 days, days; more than
    3600 seconds left, hours (seconds div 3600); more than 60 seconds
    left, minutes (seconds div 60); otherwise 'Last seen: Recently'.
    An elapsed time of 400 days gives 'Last seen: 1 year(s) ago' and
    one of 40 minutes gives 'Last seen: 40 minute(s) ago'. *)
Theorem last_seen_classification
    (user : user_obj) (w : world) (st : status_obj) (ts : datetime) :
  status user = Some st ->
  was_online st = Some (LDatetime ts) ->
  let elapsed := clock w (reads w) - micros ts in
  let d := elapsed / 86400000000 in
  let s := (elapsed mod 86400000000) / 1000000 in
  let answer := value (_get_user_status user w) in
  (365 < d ->
   answer = Ok ("Last seen: " ++ Str.of_Z (d / 365) ++ " year(s) ago"))
  /\ (d <= 365 -> 30 < d ->
      answer = Ok ("Last seen: " ++ Str.of_Z (d / 30) ++ " month(s) ago"))
  /\ (d <= 30 -> 0 < d ->
      answer = Ok ("Last seen: " ++ Str.of_Z d ++ " day(s) ago"))
  /\ (d <= 0 -> 3600 < s ->
      answer = Ok ("Last seen: " ++ Str.of_Z (s / 3600) ++ " hour(s) ago"))
  /\ (d <= 0 -> s <= 3600 -> 60 < s ->
      answer = Ok ("Last seen: " ++ Str.of_Z (s / 60) ++ " minute(s) ago"))
  /\ (d <= 0 -> s <= 60 -> answer = Ok "Last seen: Recently")
  /\ (elapsed = 400 * 86400000000 ->
      answer = Ok "Last seen: 1 year(s) ago")
  /\ (elapsed = 40 * 60 * 1000000 ->
      answer = Ok "Last seen: 40 minute(s) ago").
Proof.
  intros Hstatus Honline elapsed d s answer.
  assert (Hanswer : answer
                    = Ok (describe_elapsed (timedelta_of_micros elapsed))).
  { unfold answer. rewrite get_user_status_run.
    now rewrite Hstatus, Honline. }
  rewrite Hanswer. unfold describe_elapsed, timedelta_of_micros.
  cbn [days seconds microseconds]. fold d. fold s.
  repeat match goal with |- _ /\ _ => split end.
  - intros H1. now rewrite (gtb_true _ _ H1).
  - intros H1 H2. now rewrite (gtb_false _ _ H1), (gtb_true _ _ H2).
  - intros H1 H2.
    rewrite (gtb_false d 365) by lia.
    now rewrite (gtb_false _ _ H1), (gtb_true _ _ H2).
  - intros H1 H2.
    rewrite (gtb_false d 365), (gtb_false d 30) by lia.
    now rewrite (gtb_false _ _ H1), (gtb_true _ _ H2).
  - intros H1 H2 H3.
    rewrite (gtb_false d 365), (gtb_false d 30) by lia.
    now rewrite (gtb_false _ _ H1), (gtb_false _ _ H2), (gtb_true _ _ H3).
  - intros H1 H2.
    rewrite (gtb_false d 365), (gtb_false d 30) by lia.
    now rewrite (gtb_false _ _ H1), (gtb_false s 3600), (gtb_false _ _ H2)
      by lia.
  - intros Helapsed. subst d s. rewrite Helapsed. reflexivity.
  - intros Helapsed. subst d s. rewrite Helapsed. reflexivity.
Qed.

Ltac evaluate :=
  first [ reflexivity
        | vm_compute; reflexivity
        | let H := fresh in vm_compute; intro H; discriminate H ].

Lemma last_seen_classification_witness :
  value (_get_user_status offline_user (world_at (400 * 86400000000)))
  = Ok "Last seen: 1 year(s) ago"
  /\ value (_get_user_status offline_user (world_at (40 * 60 * 1000000)))
     = Ok "Last seen: 40 minute(s) ago"
  /\ value (_get_user_status offline_user (world_at (45 * 86400000000 + 7)))
     = Ok "Last seen: 1 month(s) ago"
  /\ value (_get_user_status offline_user
              (world_at (2 * 3600 * 1000000 + 1000000)))
     = Ok "Last seen: 2 hour(s) ago"
  /\ value (_get_user_status offline_user (world_at 59000000))
     = Ok "Last seen: Recently".
Proof.
  repeat match goal with |- _ /\ _ => split end.
  - pose proof (last_seen_classification offline_user
                  (world_at (400 * 86400000000)) _ _ eq_refl eq_refl) as H.
    cbv zeta in H. apply H. evaluate.
  - pose proof (last_seen_classification offline_user
                  (world_at (40 * 60 * 1000000)) _ _ eq_refl eq_refl) as H.
    cbv zeta in H. apply H. evaluate.
  - pose proof (last_seen_classification offline_user
                  (world_at (45 * 86400000000 + 7)) _ _ eq_refl eq_refl) as H.
    cbv zeta in H. destruct H as [_ [H _]]. apply H; evaluate.
  - pose proof (last_seen_classification offline_user
                  (world_at (2 * 3600 * 1000000 + 1000000)) _ _
                  eq_refl eq_refl) as H.
    cbv zeta in H. destruct H as [_ [_ [_ [H _]]]]. apply H; evaluate.
  - pose proof (last_seen_classification offline_user
                  (world_at 59000000) _ _ eq_refl eq_refl) as H.
    cbv zeta in H. destruct H as [_ [_ [_ [_ [_ [H _]]]]]]. apply H; evaluate.
Defined.

(** ** The analysis record *)




(** C9: the estimators are deterministic.  The registration and the
    country estimate do not depend on the world they run in; the
    status label depends on it only through the reading of the clock.
    So two calls in a row on the same input return the same value, for
    the status classifier when the clock is frozen. *)
Theorem estimators_deterministic :
  (forall (user_id : pyval) (w1 w2 : world),
      value (_estimate_registration_date user_id w1)
      = value (_estimate_registration_date user_id w2))
  /\ (forall (user : user_obj) (w1 w2 : world),
      value (_estimate_country user w1) = value (_estimate_country user w2))
  /\ (forall (user : user_obj) (w1 w2 : world),
      clock w1 (reads w1) = clock w2 (reads w2) ->
      value (_get_user_status user w1) = value (_get_user_status user w2))
  /\ (forall (user_id : pyval) (w : world),
      exists r, value (twice (_estimate_registration_date user_id) w)
                = Ok (r, r))
  /\ (forall (user : user_obj) (w : world),
      exists c, value (twice (_estimate_country user) w) = Ok (c, c))
  /\ (forall (user : user_obj) (w : world),
      frozen w ->
      exists label, value (twice (_get_user_status user) w)
                    = Ok (label, label)).
Proof.
  repeat match goal with |- _ /\ _ => split end.
  - intros user_id w1 w2.
    destruct (quiet_estimate_registration_date user_id) as [r Hr].
    now rewrite !(quiet_value _ _ Hr).
  - intros user w1 w2.
    destruct (quiet_estimate_country user) as [c Hc].
    now rewrite !(quiet_value _ _ Hc).
  - exact get_user_status_frozen.
  - intros user_id w.
    destruct (quiet_estimate_registration_date user_id) as [r Hr].
    exists r. unfold twice, bind.
    destruct (Hr w) as [l1 ->]. destruct (Hr (mkWorld (clock w) (reads w) l1)) as [l2 ->].
    reflexivity.
  - intros user w.
    destruct (quiet_estimate_country user) as [c Hc].
    exists c. unfold twice, bind.
    destruct (Hc w) as [l1 ->]. destruct (Hc (mkWorld (clock w) (reads w) l1)) as [l2 ->].
    reflexivity.
  - intros user w Hfrozen.
    destruct (get_user_status_ok user w) as [label [w' [Hs Hclock]]].
    exists label. unfold twice, bind. rewrite Hs.
    assert (Hsecond : value (_get_user_status user w') = Ok label).
    { rewrite (get_user_status_frozen user w' w).
      - now rewrite Hs.
      - rewrite Hclock. apply Hfrozen. }
    destruct (_get_user_status user w') as [[label' | e] w''];
      unfold value, fst in Hsecond; [|discriminate].
    now injection Hsecond as ->.
Qed.

Lemma estimators_deterministic_witness :
  value (_get_user_status offline_user (world_at 86400000000))
  = value (_get_user_status offline_user (mkWorld (fun _ => 86400000000) 5 []))
  /\ exists label,
      value (twice (_get_user_status offline_user) (world_at 86400000000))
      = Ok (label, label).
Proof.
  destruct estimators_deterministic as [_ [_ [Hstatus [_ [_ Htwice]]]]].
  split.
  - apply Hstatus. reflexivity.
  - apply Htwice. intros n m. reflexivity.
Defined.

(** ** Worked examples *)

Example string_operations :
  Str.contains "Online" "UserStatusOnline" = true
  /\ Str.contains "Long" "UserStatusRecently" = false
  /\ Str.delete_all "UserStatus" "UserStatusOnlineUserStatus" = "Online"
  /\ Str.of_Z 40 = "40" /\ Str.of_Z 0 = "0" /\ Str.of_Z (-3) = "-3"
  /\ Str.lower "EN-us" = "en-us"
  /\ Str.filter Str.isdigit "+1 (415) 555-2671" = "14155552671"
  /\ Str.take 3 "14155552671" = "141" /\ Str.take 3 "14" = "14".
Proof. repeat split; reflexivity. Qed.

Example timedelta_normalised :
  timedelta_of_micros (-1) = mkTimedelta (-1) 86399 999999
  /\ timedelta_of_micros (400 * 86400000000) = mkTimedelta 400 0 0
  /\ timedelta_of_micros 2400000000 = mkTimedelta 0 2400 0.
Proof. repeat split; reflexivity. Qed.

Example registration_of_500 :
  _estimate_registration_date (PInt 500) world0
  = (Ok (mkRegistration (PInt 2013) (PInt 8) (PInt 14) true "approximate"),
     world0).
Proof. reflexivity. Qed.

Example registration_of_a_string :
  _estimate_registration_date (PStr "durov") world0
  = (Ok failed_registration,
     mkWorld (fun _ => 0) O
       ["Error estimating registration date: '<' not supported between instances of 'str' and 'int'"]).
Proof. reflexivity. Qed.

Example country_of_en :
  _estimate_country (mkUser (PInt 42) (Some (PStr "en")) None None) world0
  = (Ok "English Speaking Region (from language)", world0).
Proof. vm_compute. reflexivity. Qed.

Example country_of_nothing :
  _estimate_country (mkUser (PInt 42) (Some PNone) (Some PNone) None) world0
  = (Ok "Unknown (Privacy Protected)", world0).
Proof. vm_compute. reflexivity. Qed.

Example status_of_categories :
  value (_get_user_status
           (mkUser (PInt 42) None None (Some (mkStatus "UserStatusLastWeek" None)))
           world0)
  = Ok (describe_category "UserStatusLastWeek")
  /\ value (_get_user_status
              (mkUser (PInt 42) None None (Some (mkStatus "UserStatusEmpty" None)))
              world0)
     = Ok "Status: Empty"
  /\ value (_get_user_status (mkUser (PInt 42) None None None) world0)
     = Ok "Unknown".
Proof. repeat split; reflexivity. Qed.

(** * Further properties *)

(** ** Prefixes of strings *)

Lemma take_length (n : nat) (s : string) :
  String.length (Str.take n s) = Nat.min n (String.length s).
Proof.
  revert s. induction n as [|n IH]; intros [|c s]; simpl; try reflexivity.
  now rewrite IH.
Qed.

Lemma take_take (m n : nat) (s : string) :
  (m <= n)%nat -> Str.take m (Str.take n s) = Str.take m s.
Proof.
  revert n s. induction m as [|m IH]; intros [|n] [|c s] Hle; simpl;
    try reflexivity; try lia.
  rewrite IH by lia. reflexivity.
Qed.

Lemma take_all (n : nat) (s : string) :
  (String.length s <= n)%nat -> Str.take n s = s.
Proof.
  revert s. induction n as [|n IH]; intros [|c s] Hle; simpl in *;
    try reflexivity; try lia.
  rewrite IH by lia. reflexivity.
Qed.

Lemma take_append (n : nat) (s t : string) :
  (n <= String.length s)%nat -> Str.take n (s ++ t) = Str.take n s.
Proof.
  revert s. induction n as [|n IH]; intros s Hle.
  - now destruct s, t.
  - destruct s as [|c s]; simpl in *; [lia|].
    rewrite IH by lia. reflexivity.
Qed.

Lemma append_length (s t : string) :
  String.length (s ++ t) = (String.length s + String.length t)%nat.
Proof. induction s as [|c s IH]; simpl; [reflexivity | now rewrite IH]. Qed.

(** ** Profile data *)

(** What [_get_user_bio] returns for a [full_user] object, by the
    value of its [about]. *)
Lemma get_user_bio_cases (inner : user_full) (w : world) :
  _get_user_bio (Some (mkFullUser (Some inner))) w
  = (Ok (match getattr_or (about inner) (PStr "") with
         | PStr s =>
             if (100 <? String.length s)%nat
             then PStr (Str.take 100 s ++ "...")
             else if String.eqb s "" then PStr "No bio" else PStr s
         | _ => PStr "No bio"
         end), w).
Proof.
  unfold _get_user_bio, try_except, bind. cbn [full_user].
  destruct (getattr_or (about inner) (PStr "")) as [| b | z | s];
    try reflexivity.
  cbn [py_len ret].
  destruct (100 <? String.length s)%nat; [reflexivity|].
  unfold py_or, truthy, ret. now destruct (String.eqb s "").
Qed.

(** X1: the bio entry is always a string of between 1 and 103
    characters, whatever the answer to the full-user request was. *)
Theorem bio_is_present_and_short (full : option full_user_obj) (w : world) :
  exists s, _get_user_bio full w = (Ok (PStr s), w)
            /\ (1 <= String.length s <= 103)%nat.
Proof.
  destruct full as [[[inner|]]|];
    try (exists "No bio"; split; [reflexivity | simpl; lia]).
  rewrite get_user_bio_cases.
  destruct (getattr_or (about inner) (PStr "")) as [| b | z | s];
    try (exists "No bio"; split; [reflexivity | simpl; lia]).
  destruct (100 <? String.length s)%nat eqn:Hlong.
  - exists (Str.take 100 s ++ "..."). split; [reflexivity|].
    apply Nat.ltb_lt in Hlong.
    rewrite append_length, take_length.
    change (String.length "...") with 3%nat. lia.
  - apply Nat.ltb_ge in Hlong.
    destruct s as [|c s].
    + exists "No bio". split; [reflexivity | simpl; lia].
    + exists (String c s). split; [reflexivity | simpl in *; lia].
Qed.

(** X2: the first 100 characters of a non-empty bio are always kept:
    a bio of at most 100 characters is returned as it is, and a longer
    one is cut after 100 characters and gets '...', 103 characters in
    all. *)
Theorem bio_keeps_first_hundred (inner : user_full) (s : string) (w : world) :
  about inner = Some (PStr s) ->
  s <> "" ->
  exists shown,
    _get_user_bio (Some (mkFullUser (Some inner))) w = (Ok (PStr shown), w)
    /\ Str.take 100 shown = Str.take 100 s
    /\ ((String.length s <= 100)%nat -> shown = s)
    /\ ((100 < String.length s)%nat ->
        shown = Str.take 100 s ++ "..." /\ String.length shown = 103%nat).
Proof.
  intros Habout Hs. rewrite get_user_bio_cases, Habout. cbn [getattr_or].
  destruct (100 <? String.length s)%nat eqn:Hlong.
  - apply Nat.ltb_lt in Hlong.
    exists (Str.take 100 s ++ "..."). split; [reflexivity|].
    assert (Hlen : String.length (Str.take 100 s ++ "...") = 103%nat)
      by (rewrite append_length, take_length;
          change (String.length "...") with 3%nat; lia).
    split; [|split].
    + rewrite take_append by (rewrite take_length; lia).
      apply take_take. lia.
    + lia.
    + intros _. split; [reflexivity | exact Hlen].
  - apply Nat.ltb_ge in Hlong.
    apply String.eqb_neq in Hs. rewrite Hs.
    exists s. split; [reflexivity|].
    split; [reflexivity|]. split; [reflexivity | lia].
Qed.

Lemma bio_keeps_first_hundred_witness :
  exists shown,
    _get_user_bio
      (Some (mkFullUser (Some (mkUserFull (Some (PStr "Founder")) None))))
      world0
    = (Ok (PStr shown), world0)
    /\ Str.take 100 shown = Str.take 100 "Founder"
    /\ ((String.length "Founder" <= 100)%nat -> shown = "Founder")
    /\ ((100 < String.length "Founder")%nat ->
        shown = Str.take 100 "Founder" ++ "..."
        /\ String.length shown = 103%nat).
Proof.
  apply (bio_keeps_first_hundred (mkUserFull (Some (PStr "Founder")) None)
           "Founder" world0).
  - reflexivity.
  - discriminate.
Defined.

(** X3: an [about] that is there but is not a string (None, a number,
    a boolean) gives 'No bio': [len] raises on it and the [except]
    clause answers. *)
Theorem bio_of_a_non_string (inner : user_full) (v : pyval) (w : world) :
  about inner = Some v ->
  (forall s, v <> PStr s) ->
  (exists e, py_len v w = (Raise e, w))
  /\ _get_user_bio (Some (mkFullUser (Some inner))) w = (Ok (PStr "No bio"), w).
Proof.
  intros Habout Hv. rewrite get_user_bio_cases, Habout. cbn [getattr_or].
  destruct v as [| b | z | s]; try (split; [eexists|]; reflexivity).
  now destruct (Hv s).
Qed.

Lemma bio_of_a_non_string_witness :
  (exists e, py_len PNone world0 = (Raise e, world0))
  /\ _get_user_bio (Some (mkFullUser (Some (mkUserFull (Some PNone) (Some (PInt 3))))))
                   world0
     = (Ok (PStr "No bio"), world0).
Proof.
  apply (bio_of_a_non_string (mkUserFull (Some PNone) (Some (PInt 3))) PNone world0).
  - reflexivity.
  - discriminate.
Defined.

(** X4: the two entries read off the photo agree.  Either the account
    has no photo, and then the profile-photo entry is 'No' and the
    data centre is 'No Photo'; or it has one, and then the entry is
    'Yes' and the data centre is the [dc_id] of the photo, 'Unknown'
    when the photo has none. *)
Theorem photo_entries_agree (user : account) (w : world) :
  (_has_profile_photo user w = (Ok "No", w)
   /\ _get_dc_id user w = (Ok (PStr "No Photo"), w)
   /\ (photo user = None \/ photo user = Some PhotoNone))
  \/ (exists dc_id,
        photo user = Some (PhotoObj dc_id)
        /\ _has_profile_photo user w = (Ok "Yes", w)
        /\ _get_dc_id user w
           = (Ok (match dc_id with Some v => v | None => PStr "Unknown" end), w)).
Proof.
  unfold _has_profile_photo, _get_dc_id, try_except.
  destruct (photo user) as [[|dc_id]|].
  - left. repeat split; auto.
  - right. exists dc_id. repeat split; now destruct dc_id.
  - left. repeat split; auto.
Qed.

(** ** Username input *)

Lemma at_sign_is_no_number (rest : string) :
  str_isdigit (String "@" rest) = false.
Proof. reflexivity. Qed.

(** X9: the username step removes exactly one leading '@' from a
    string and changes nothing else: a second '@' stays, and a value
    that does not start with '@' is passed on as it is. *)
Theorem username_loses_one_at_sign :
  (forall rest : string,
      handle_username_input (PStr (String "@" rest)) = PStr rest)
  /\ (forall user_id : pyval,
      (forall rest, user_id <> PStr (String "@" rest)) ->
      handle_username_input user_id = user_id).
Proof.
  split.
  - intros rest. unfold handle_username_input.
    now rewrite at_sign_is_no_number.
  - intros [| b | z | s] Hno; try reflexivity.
    unfold handle_username_input.
    destruct (negb (str_isdigit s)); [|reflexivity].
    destruct s as [|c s]; [reflexivity|].
    destruct (Ascii.eqb c "@") eqn:Hc.
    + apply Ascii.eqb_eq in Hc. subst c. now destruct (Hno s).
    + destruct c as [[] [] [] [] [] [] [] []]; try reflexivity.
      discriminate Hc.
Qed.

Lemma username_loses_one_at_sign_witness :
  handle_username_input (PStr "@@durov") = PStr "@durov"
  /\ handle_username_input (PStr "durov") = PStr "durov"
  /\ handle_username_input (PStr "123456789") = PStr "123456789"
  /\ handle_username_input (PInt 123456789) = PInt 123456789.
Proof.
  destruct username_loses_one_at_sign as [Hstrip Hkeep].
  split; [|split; [|split]].
  - apply (Hstrip "@durov").
  - apply Hkeep. discriminate.
  - apply Hkeep. discriminate.
  - apply Hkeep. discriminate.
Defined.

(** ** Registration dates and the report *)

Lemma bucket_among (P : date_info -> Prop) (ranges : list (Z * date_info)) :
  (forall t d, In (t, d) ranges -> P d) ->
  P newest_date ->
  forall user_id, P (bucket user_id ranges).
Proof.
  induction ranges as [|[t d] rest IH]; intros Hall Hnew user_id; simpl.
  - exact Hnew.
  - destruct (user_id <? t).
    + apply (Hall t d). now left.
    + apply IH; [|exact Hnew]. intros t' d' Hin. apply (Hall t' d'). now right.
Qed.

Lemma bucket_checked (check : date_info -> bool) :
  forallb (fun entry => check (snd entry)) id_ranges = true ->
  check newest_date = true ->
  forall user_id, check (bucket user_id id_ranges) = true.
Proof.
  intros Hall Hnew.
  apply (bucket_among (fun d => check d = true)); [|exact Hnew].
  intros t d Hin.
  rewrite forallb_forall in Hall. exact (Hall (t, d) Hin).
Qed.

(** X5: for an integer identifier the estimated date lies between
    2013-08-14 and 2024-06-01, with a month from 1 to 12 and a day
    from 1 to 31. *)
Theorem registration_date_in_range (user_id : Z) (w : world) :
  exists d,
    _estimate_registration_date (PInt user_id) w = (Ok (approximate d), w)
    /\ date_le (mkDate 2013 8 14) d
    /\ date_le d (mkDate 2024 6 1)
    /\ 1 <= d_month d <= 12
    /\ 1 <= d_day d <= 31.
Proof.
  exists (bucket user_id id_ranges). split; [apply estimate_int|].
  pose proof (bucket_checked
                (fun d => date_leb (mkDate 2013 8 14) d
                          && date_leb d (mkDate 2024 6 1)
                          && (1 <=? d_month d) && (d_month d <=? 12)
                          && (1 <=? d_day d) && (d_day d <=? 31))
                eq_refl eq_refl user_id) as Hcheck.
  cbv beta in Hcheck.
  rewrite !andb_true_iff, !date_leb_le, !Z.leb_le in Hcheck.
  tauto.
Qed.

(** X6: for an integer identifier the date of the report is a string
    of the form YYYY-MM-DD (Estimated): four digits, two digits, two
    digits. *)
Theorem registration_date_string (user_id : Z) (w : world) :
  exists r s,
    _estimate_registration_date (PInt user_id) w = (Ok r, w)
    /\ format_date_str r = Text s
    /\ date_str_shape s = true
    /\ String.length s = 22%nat.
Proof.
  pose proof (bucket_checked
                (fun d => match format_date_str (approximate d) with
                          | Text s => date_str_shape s
                                      && (String.length s =? 22)%nat
                          | Fails _ => false
                          end)
                eq_refl eq_refl user_id) as Hcheck.
  cbv beta in Hcheck.
  exists (approximate (bucket user_id id_ranges)).
  destruct (format_date_str (approximate (bucket user_id id_ranges)))
    as [s | e]; [|discriminate].
  exists s. apply andb_true_iff in Hcheck as [Hshape Hlen].
  apply Nat.eqb_eq in Hlen.
  repeat split; [apply estimate_int | exact Hshape | exact Hlen].
Qed.

(** X18: the registration estimator logs an error exactly when it
    fails.  For an integer or a boolean it returns an approximate date
    and leaves the world as it was; for None or a string it returns
    the 'failed' dict and appends one record to the log, with the
    message of the TypeError. *)
Theorem registration_failure_is_logged (user_id : pyval) (w : world) :
  match user_id with
  | PInt _ | PBool _ =>
      exists d,
        _estimate_registration_date user_id w = (Ok (approximate d), w)
  | _ =>
      _estimate_registration_date user_id w
      = (Ok failed_registration,
         mkWorld (clock w) (reads w)
           (log w ++ [("Error estimating registration date: "
                       ++ "'<' not supported between instances of '"
                       ++ type_name_of user_id ++ "' and 'int'")%string])%list)
  end.
Proof.
  destruct user_id as [| b | z | s]; try reflexivity.
  - unfold _estimate_registration_date, try_except.
    destruct (scan_cases id_ranges (PBool b) w) as [[d Hd] | [e He]].
    + exists d. now rewrite Hd.
    + exfalso. revert He. generalize id_ranges as ranges.
      induction ranges as [|[t d] rest IH]; simpl; [discriminate|].
      unfold bind, py_lt, ret.
      destruct ((if b then 1 else 0) <? t); [discriminate | exact IH].
  - exists (bucket z id_ranges). apply estimate_int.
Qed.

(** ** The whole record *)

Lemma get_dc_id_pure user : exists v, forall w, _get_dc_id user w = (Ok v, w).
Proof.
  unfold _get_dc_id, try_except.
  destruct (photo user) as [[|dc_id]|]; eexists; intros w; reflexivity.
Qed.

Lemma has_profile_photo_pure user :
  exists v, forall w, _has_profile_photo user w = (Ok v, w).
Proof.
  unfold _has_profile_photo, try_except.
  destruct (photo user) as [[|dc_id]|]; eexists; intros w; reflexivity.
Qed.

Lemma get_common_chats_pure full :
  exists v, forall w, _get_common_chats full w = (Ok v, w).
Proof.
  unfold _get_common_chats, try_except.
  destruct full as [[[inner|]]|]; eexists; intros w; reflexivity.
Qed.

Lemma get_user_bio_pure full :
  exists v, forall w, _get_user_bio full w = (Ok v, w).
Proof.
  destruct full as [[[inner|]]|];
    try (exists (PStr "No bio"); intros w; reflexivity).
  eexists. intros w. apply get_user_bio_cases.
Qed.

(** A run of [compile_info_dict]: the two estimators that may log run
    first, then the status classifier, which may read the clock, then
    the profile helpers, and the clock is read for the time stamp. *)
Lemma compile_info_dict_run isoformat user w :
  exists r c l label w3 dc shown,
    (forall w1, value (_estimate_registration_date (id (base user)) w1) = Ok r)
    /\ (forall w1, value (_estimate_country (base user) w1) = Ok c)
    /\ _get_user_status (base user) (mkWorld (clock w) (reads w) l)
       = (Ok label, w3)
    /\ (forall w1, _get_dc_id user w1 = (Ok dc, w1))
    /\ (forall w1, _has_profile_photo user w1 = (Ok shown, w1))
    /\ forall full, exists chats bio,
        (forall w1, _get_common_chats full w1 = (Ok chats, w1))
        /\ (forall w1, _get_user_bio full w1 = (Ok bio, w1))
        /\ compile_info_dict isoformat user full w
           = (Ok (mkInfo (id (base user))
                    (py_or (getattr_or (first_name user) PNone) (PStr "N/A"))
                    (py_or (getattr_or (last_name user) PNone) (PStr "N/A"))
                    (py_or (getattr_or (username user) PNone) (PStr "N/A"))
                    (py_or (getattr_or (phone (base user)) PNone)
                           (PStr "Hidden/Private"))
                    (getattr_or (bot user) (PBool false))
                    (getattr_or (verified user) (PBool false))
                    (getattr_or (premium user) (PBool false))
                    (getattr_or (fake user) (PBool false))
                    (getattr_or (scam user) (PBool false))
                    (getattr_or (deleted user) (PBool false))
                    (getattr_or (lang_code (base user)) PNone)
                    dc r c label shown chats bio
                    (isoformat (mkDatetime (clock w3 (reads w3)) None))),
              tick w3).
Proof.
  destruct (quiet_estimate_registration_date (id (base user))) as [r Hr].
  destruct (quiet_estimate_country (base user)) as [c Hc].
  destruct (get_dc_id_pure user) as [dc Hdc].
  destruct (has_profile_photo_pure user) as [shown Hshown].
  destruct (Hr w) as [l1 Hr1].
  destruct (Hc (mkWorld (clock w) (reads w) l1)) as [l2 Hc2].
  cbn [clock reads] in Hc2.
  destruct (get_user_status_ok (base user) (mkWorld (clock w) (reads w) l2))
    as [label [w3 [Hs _]]].
  exists r, c, l2, label, w3, dc, shown.
  split; [exact (quiet_value _ _ Hr)|].
  split; [exact (quiet_value _ _ Hc)|].
  split; [exact Hs|].
  split; [assumption|]. split; [assumption|].
  intros full.
  destruct (get_common_chats_pure full) as [chats Hchats].
  destruct (get_user_bio_pure full) as [bio Hbio].
  exists chats, bio. split; [assumption|]. split; [assumption|].
  unfold compile_info_dict, bind.
  rewrite Hdc, Hr1, Hc2, Hs, Hshown, Hchats, Hbio. reflexivity.
Qed.

Lemma bucket_date_str (user_id : Z) :
  exists s, format_date_str (approximate (bucket user_id id_ranges)) = Text s.
Proof.
  pose proof (bucket_checked
                (fun d => match format_date_str (approximate d) with
                          | Text _ => true
                          | Fails _ => false
                          end)
                eq_refl eq_refl user_id) as Hcheck.
  cbv beta in Hcheck.
  destruct (format_date_str (approximate (bucket user_id id_ranges)))
    as [s | e]; [now exists s | discriminate].
Qed.

Lemma py_str_cases (v : pyval) :
  (printable v = true /\ exists s, py_str v = Text s)
  \/ (printable v = false /\ py_str v = Fails (ValueError int_limit_message)).
Proof.
  destruct v as [| b | z | s]; try (left; split; [reflexivity | eexists; reflexivity]).
  unfold printable, py_str, int_str.
  destruct (int_too_long z); [right | left]; split; try reflexivity.
  eexists; reflexivity.
Qed.

(** Once the date string is there, the report is written exactly when
    every entry it converts is printable; otherwise the conversion of
    the first one that is not raises. *)
Lemma format_user_info_cases (info : info_dict) (date_str : string) :
  format_date_str (i_registration_date info) = Text date_str ->
  (printed_entries_fit info = true /\ exists text, format_user_info info = Text text)
  \/ (printed_entries_fit info = false
      /\ format_user_info info = Fails (ValueError int_limit_message)).
Proof.
  intros Hdate. unfold format_user_info, printed_entries_fit.
  rewrite Hdate. cbn [then_format].
  repeat match goal with
         | |- context [then_format (py_str ?v) _] =>
             destruct (py_str_cases v) as [[-> [? ->]] | [-> ->]];
             cbn [then_format andb];
             [| right; split; reflexivity]
         end.
  left. split; [reflexivity | eexists; reflexivity].
Qed.

(** X7: the report cannot be written for a failed registration
    estimate: the month 'Unknown' does not take the format 02d, and
    [format_user_info] raises ValueError.  So it does for every record
    that [get_user_info] compiles for an identifier that is neither an
    integer nor a boolean. *)
Theorem report_fails_on_failed_registration :
  (forall info : info_dict,
      i_registration_date info = failed_registration ->
      format_user_info info
      = Fails (ValueError "Unknown format code 'd' for object of type 'str'"))
  /\ (forall (isoformat : datetime -> string) (user : account)
             (full : option full_user_obj) (w : world),
      (forall z, id (base user) <> PInt z) ->
      (forall b, id (base user) <> PBool b) ->
      exists info w',
        compile_info_dict isoformat user full w = (Ok info, w')
        /\ accuracy (i_registration_date info) = "failed"
        /\ format_user_info info
           = Fails (ValueError
                      "Unknown format code 'd' for object of type 'str'")).
Proof.
  split.
  - intros info Hreg. unfold format_user_info. rewrite Hreg. reflexivity.
  - intros isoformat user full w Hint Hbool.
    destruct (compile_info_dict_run isoformat user w)
      as [r [c [l [label [w3 [dc [shown [Hr [_ [_ [_ [_ Hfull]]]]]]]]]]]].
    destruct (Hfull full) as [chats [bio [_ [_ Hrun]]]].
    assert (Hfailed : r = failed_registration).
    { specialize (Hr w).
      destruct (id (base user)) as [| b | z | s].
      - change (Ok failed_registration = Ok r) in Hr. congruence.
      - now destruct (Hbool b).
      - now destruct (Hint z).
      - change (Ok failed_registration = Ok r) in Hr. congruence. }
    subst r. eexists. eexists. split; [exact Hrun|]. split; reflexivity.
Qed.

Lemma report_fails_on_failed_registration_witness :
  exists info w',
    compile_info_dict micros_text (bare_account garbled_user) None world0
    = (Ok info, w')
    /\ accuracy (i_registration_date info) = "failed"
    /\ format_user_info info
       = Fails (ValueError "Unknown format code 'd' for object of type 'str'").
Proof.
  destruct report_fails_on_failed_registration as [_ Hrecord].
  apply (Hrecord micros_text (bare_account garbled_user) None world0);
    discriminate.
Defined.

(** X8: for an account with an integer identifier [get_user_info]
    compiles a record with an approximate date, and [format_user_info]
    writes its report exactly when none of the entries that it
    converts with [str] is an integer of more than 4300 digits;
    otherwise it raises the ValueError of that conversion. *)
Theorem report_for_integer_identifier
    (isoformat : datetime -> string) (user : account)
    (full : option full_user_obj) (w : world) (z : Z) :
  id (base user) = PInt z ->
  exists info w',
    compile_info_dict isoformat user full w = (Ok info, w')
    /\ accuracy (i_registration_date info) = "approximate"
    /\ ((printed_entries_fit info = true
         /\ exists text, format_user_info info = Text text)
        \/ (printed_entries_fit info = false
            /\ format_user_info info = Fails (ValueError int_limit_message))).
Proof.
  intros Hid.
  destruct (compile_info_dict_run isoformat user w)
    as [r [c [l [label [w3 [dc [shown [Hr [_ [_ [_ [_ Hfull]]]]]]]]]]]].
  destruct (Hfull full) as [chats [bio [_ [_ Hrun]]]].
  assert (Happrox : r = approximate (bucket z id_ranges)).
  { specialize (Hr w). rewrite Hid, estimate_int in Hr.
    unfold value, fst in Hr. congruence. }
  subst r.
  destruct (bucket_date_str z) as [s Hs].
  eexists. eexists. split; [exact Hrun|]. split; [reflexivity|].
  apply (format_user_info_cases _ s). exact Hs.
Qed.

Lemma report_for_integer_identifier_witness :
  (exists info w',
     compile_info_dict micros_text (bare_account offline_user) None world0
     = (Ok info, w')
     /\ accuracy (i_registration_date info) = "approximate"
     /\ ((printed_entries_fit info = true
          /\ exists text, format_user_info info = Text text)
         \/ (printed_entries_fit info = false
             /\ format_user_info info
                = Fails (ValueError int_limit_message))))
  /\ exists info w',
      compile_info_dict micros_text
        (bare_account (mkUser (PInt huge_int) None None None)) None world0
      = (Ok info, w')
      /\ accuracy (i_registration_date info) = "approximate"
      /\ ((printed_entries_fit info = true
           /\ exists text, format_user_info info = Text text)
          \/ (printed_entries_fit info = false
              /\ format_user_info info
                 = Fails (ValueError int_limit_message))).
Proof.
  split.
  - apply (report_for_integer_identifier micros_text
             (bare_account offline_user) None world0 42).
    reflexivity.
  - apply (report_for_integer_identifier micros_text
             (bare_account (mkUser (PInt huge_int) None None None))
             None world0 huge_int).
    reflexivity.
Defined.

(** X17: when the full-user request gave nothing ([full_user] is None),
    the record is the one that would have been compiled otherwise but
    for two entries: the common chats are 0 and the bio is 'No bio'.
    The world ends up the same. *)
Theorem record_without_full_user
    (isoformat : datetime -> string) (user : account)
    (full : option full_user_obj) (w : world) :
  exists info w',
    compile_info_dict isoformat user full w = (Ok info, w')
    /\ compile_info_dict isoformat user None w
       = (Ok (with_profile info (PInt 0) (PStr "No bio")), w').
Proof.
  destruct (compile_info_dict_run isoformat user w)
    as [r [c [l [label [w3 [dc [shown [_ [_ [_ [_ [_ Hfull]]]]]]]]]]]].
  destruct (Hfull full) as [chats [bio [_ [_ Hrun]]]].
  destruct (Hfull None) as [chats0 [bio0 [Hchats0 [Hbio0 Hrun0]]]].
  specialize (Hchats0 w). specialize (Hbio0 w).
  change ((Ok (PInt 0), w) = (Ok chats0, w)) in Hchats0.
  change ((Ok (PStr "No bio"), w) = (Ok bio0, w)) in Hbio0.
  assert (chats0 = PInt 0) as -> by congruence.
  assert (bio0 = PStr "No bio") as -> by congruence.
  eexists. eexists. split; [exact Hrun|]. exact Hrun0.
Qed.

(** X19: compiling a record reads the clock once for the time stamp,
    and once before that when the status of the account carries
    [was_online]; nothing else of the clock changes.  The time stamp
    is the last reading, so with [was_online] it is not the reading
    that the last-seen label was computed from. *)
Theorem record_reads_the_clock
    (isoformat : datetime -> string) (user : account)
    (full : option full_user_obj) (w : world) :
  exists info w',
    compile_info_dict isoformat user full w = (Ok info, w')
    /\ clock w' = clock w
    /\ match status (base user) with
       | Some (mkStatus _ (Some _)) =>
           reads w' = S (S (reads w))
           /\ i_analysis_timestamp info
              = isoformat (mkDatetime (clock w (S (reads w))) None)
       | _ =>
           reads w' = S (reads w)
           /\ i_analysis_timestamp info
              = isoformat (mkDatetime (clock w (reads w)) None)
       end.
Proof.
  destruct (compile_info_dict_run isoformat user w)
    as [r [c [l [label [w3 [dc [shown [_ [_ [Hs [_ [_ Hfull]]]]]]]]]]]].
  destruct (Hfull full) as [chats [bio [_ [_ Hrun]]]].
  eexists. eexists. split; [exact Hrun|].
  rewrite get_user_status_run in Hs.
  cbn [i_analysis_timestamp].
  destruct (status (base user)) as [[name [[ts | v]|]]|];
    cbn [was_online] in Hs; try destruct (py_str v);
    injection Hs as _ <-; cbn; auto.
Qed.

(** ** The answers of the country estimator *)

Lemma from_language_cases user w :
  from_language user w = (Ok None, w)
  \/ (exists tag label,
        lang_code user = Some (PStr tag)
        /\ dict_get lang_country_map (Str.lower tag) = Some label
        /\ from_language user w = (Ok (Some (label ++ " (from language)")), w))
  \/ (exists e, from_language user w = (Raise e, w)).
Proof.
  destruct (lang_code user) as [[| b | z | tag]|] eqn:Hlang.
  - left. apply from_language_miss. unfold language_unrecognised.
    now rewrite Hlang.
  - unfold from_language. rewrite Hlang.
    destruct b; [right; right; eexists; reflexivity | now left].
  - unfold from_language. rewrite Hlang. unfold truthy.
    destruct (z =? 0); [now left | right; right; eexists; reflexivity].
  - destruct (dict_get lang_country_map (Str.lower tag)) as [label|] eqn:Hget.
    + right. left. exists tag, label.
      repeat split; try assumption.
      exact (from_language_hit user w tag label Hlang Hget).
    + left. apply from_language_miss. unfold language_unrecognised.
      now rewrite Hlang.
  - left. apply from_language_miss. unfold language_unrecognised.
    now rewrite Hlang.
Qed.

Lemma prefix_lookup_label (codes : dict) (digits : string) (lengths : list nat) :
  prefix_lookup codes digits lengths = "Unknown"
  \/ exists key, dict_get codes key
                 = Some (prefix_lookup codes digits lengths).
Proof.
  induction lengths as [|n lengths IH]; simpl; [now left|].
  destruct (n <=? String.length digits)%nat; [|exact IH].
  destruct (dict_get codes (Str.take n digits)) as [label|] eqn:Hget;
    [|exact IH].
  right. now exists (Str.take n digits).
Qed.

Lemma from_phone_cases user w :
  from_phone user w = (Ok None, w)
  \/ (exists key label,
        dict_get country_codes key = Some label
        /\ from_phone user w = (Ok (Some (label ++ " (from phone)")), w))
  \/ (exists e, from_phone user w = (Raise e, w)).
Proof.
  destruct (phone user) as [[| b | z | number]|] eqn:Hphone.
  - left. unfold from_phone. now rewrite Hphone.
  - unfold from_phone. rewrite Hphone.
    destruct b; [right; right; eexists; reflexivity | now left].
  - unfold from_phone. rewrite Hphone. unfold truthy.
    destruct (z =? 0) eqn:Hz; [now left|].
    right; right. unfold _country_from_phone, bind, truthy. rewrite Hz.
    eexists. reflexivity.
  - destruct (from_phone_str user w number Hphone) as [label [Hval ->]].
    destruct (String.eqb label "Unknown") eqn:Hlabel; [now left|].
    right. left.
    rewrite country_from_phone_str in Hval. unfold value, fst in Hval.
    destruct (String.length number <? 2)%nat.
    + injection Hval as <-. discriminate Hlabel.
    + destruct (prefix_lookup_label country_codes
                  (Str.filter Str.isdigit number) [3; 2; 1]%nat)
        as [Hunknown | [key Hkey]].
      * rewrite Hunknown in Hval. injection Hval as <-. discriminate Hlabel.
      * exists key, label. split; [|reflexivity].
        rewrite Hkey. congruence.
  - left. unfold from_phone. now rewrite Hphone.
Qed.

(** X10: the country estimator has four kinds of answer.  A label of
    the language table with ' (from language)', a label of the
    calling-code table with ' (from phone)' and 'Unknown (Privacy
    Protected)' come with the world untouched; the bare 'Unknown'
    comes exactly with one more record in the log, that of the
    exception caught. *)
Theorem country_answers (user : user_obj) (w : world) :
  exists c w',
    _estimate_country user w = (Ok c, w')
    /\ ((exists tag label,
           lang_code user = Some (PStr tag)
           /\ dict_get lang_country_map (Str.lower tag) = Some label
           /\ c = label ++ " (from language)" /\ w' = w)
        \/ (exists key label,
              dict_get country_codes key = Some label
              /\ c = label ++ " (from phone)" /\ w' = w)
        \/ (c = "Unknown (Privacy Protected)" /\ w' = w)
        \/ (c = "Unknown"
            /\ exists e,
                w' = mkWorld (clock w) (reads w)
                       (log w ++ [("Error estimating country: "
                                   ++ exn_str e)%string])%list)).
Proof.
  unfold _estimate_country, try_except, country_body, bind.
  destruct (from_language_cases user w)
    as [-> | [[tag [label [Hlang [Hget ->]]]] | [e ->]]].
  - destruct (from_phone_cases user w)
      as [-> | [[key [label [Hget ->]]] | [e ->]]].
    + eexists. eexists. split; [reflexivity|]. right. right. left. now split.
    + eexists. eexists. split; [reflexivity|]. right. left.
      exists key, label. now repeat split.
    + eexists. eexists. split; [reflexivity|]. right. right. right.
      split; [reflexivity|]. now exists e.
  - eexists. eexists. split; [reflexivity|]. left.
    exists tag, label. now repeat split.
  - eexists. eexists. split; [reflexivity|]. right. right. right.
    split; [reflexivity|]. now exists e.
Qed.

Lemma lower_char_idempotent (c : ascii) :
  Str.lower_char (Str.lower_char c) = Str.lower_char c.
Proof. destruct c as [[] [] [] [] [] [] [] []]; reflexivity. Qed.

Lemma lower_idempotent (s : string) : Str.lower (Str.lower s) = Str.lower s.
Proof.
  induction s as [|c s IH]; simpl; [reflexivity|].
  now rewrite lower_char_idempotent, IH.
Qed.

Lemma lower_empty (s : string) : Str.lower s = "" <-> s = "".
Proof. destruct s; simpl; split; congruence. Qed.

(** X11: the language step does not look at the case of the tag: two
    tags with the same lowercase form give the same estimate, and so
    a tag gives the estimate of its lowercase form. *)
Theorem language_tag_case_is_ignored
    (ident : pyval) (tag1 tag2 : string) (number : option pyval)
    (st : option status_obj) (w : world) :
  Str.lower tag1 = Str.lower tag2 ->
  _estimate_country (mkUser ident (Some (PStr tag1)) number st) w
  = _estimate_country (mkUser ident (Some (PStr tag2)) number st) w
  /\ _estimate_country (mkUser ident (Some (PStr (Str.lower tag1))) number st) w
     = _estimate_country (mkUser ident (Some (PStr tag1)) number st) w.
Proof.
  assert (Hsame : forall t1 t2, Str.lower t1 = Str.lower t2 ->
            _estimate_country (mkUser ident (Some (PStr t1)) number st) w
            = _estimate_country (mkUser ident (Some (PStr t2)) number st) w).
  { intros t1 t2 Hlower.
    unfold _estimate_country, try_except, country_body, bind.
    assert (Hlang : from_language (mkUser ident (Some (PStr t1)) number st) w
                    = from_language (mkUser ident (Some (PStr t2)) number st) w).
    { unfold from_language. cbn [lang_code].
      destruct t1 as [|c1 t1], t2 as [|c2 t2]; try reflexivity;
        try (simpl in Hlower; discriminate).
      rewrite !truthy_nonempty. unfold bind.
      rewrite !country_from_lang_code_str. now rewrite Hlower. }
    rewrite Hlang. reflexivity. }
  intros Hlower. split.
  - now apply Hsame.
  - apply Hsame. apply lower_idempotent.
Qed.

Lemma language_tag_case_is_ignored_witness :
  _estimate_country (mkUser (PInt 42) (Some (PStr "RU")) None None) world0
  = _estimate_country (mkUser (PInt 42) (Some (PStr "Ru")) None None) world0
  /\ _estimate_country
       (mkUser (PInt 42) (Some (PStr (Str.lower "RU"))) None None) world0
     = _estimate_country (mkUser (PInt 42) (Some (PStr "RU")) None None) world0.
Proof.
  apply (language_tag_case_is_ignored (PInt 42) "RU" "Ru" None None world0).
  reflexivity.
Defined.

(** ** The calling-code table *)

Lemma dict_get_in (d : dict) (k v : string) :
  dict_get d k = Some v -> In (k, v) d.
Proof.
  induction d as [|[k' v'] d IH]; simpl; [discriminate|].
  destruct (String.eqb k' k) eqn:Hk.
  - apply String.eqb_eq in Hk. intros [= ->]. left. now subst.
  - intros Hget. right. now apply IH.
Qed.

Lemma country_codes_prefix_free : prefix_free country_codes = true.
Proof. vm_compute. reflexivity. Qed.

(** In a prefix-free table a hit at one length excludes a hit at any
    shorter length. *)
Lemma prefix_free_exclusive (codes : dict) (digits : string) (m n : nat) v :
  prefix_free codes = true ->
  (1 <= m < n)%nat ->
  (n <= String.length digits)%nat ->
  dict_get codes (Str.take n digits) = Some v ->
  dict_get codes (Str.take m digits) = None.
Proof.
  intros Hfree Hm Hn Hget.
  unfold prefix_free in Hfree. rewrite forallb_forall in Hfree.
  specialize (Hfree _ (dict_get_in _ _ _ Hget)). cbn [fst] in Hfree.
  rewrite forallb_forall in Hfree.
  assert (Hin : In m (seq 1 (String.length (Str.take n digits) - 1)))
    by (apply in_seq; rewrite take_length; lia).
  specialize (Hfree m Hin). apply negb_true_iff in Hfree.
  rewrite take_take in Hfree by lia.
  unfold dict_mem in Hfree.
  now destruct (dict_get codes (Str.take m digits)).
Qed.

Lemma prefix_lookup_any_order (codes : dict) (digits : string) :
  prefix_free codes = true ->
  prefix_lookup codes digits [3; 2; 1]%nat
  = prefix_lookup codes digits [1; 2; 3]%nat.
Proof.
  intros Hfree.
  pose proof (fun m n v => prefix_free_exclusive codes digits m n v Hfree)
    as Hex.
  cbn [prefix_lookup].
  destruct (Nat.leb_spec 3 (String.length digits)) as [H3 | H3];
    destruct (Nat.leb_spec 2 (String.length digits)) as [H2 | H2];
    destruct (Nat.leb_spec 1 (String.length digits)) as [H1 | H1];
    try lia; try reflexivity.
  - destruct (dict_get codes (Str.take 3 digits)) as [v3|] eqn:G3.
    + rewrite (Hex 1%nat 3%nat v3), (Hex 2%nat 3%nat v3) by (assumption || lia).
      reflexivity.
    + destruct (dict_get codes (Str.take 2 digits)) as [v2|] eqn:G2.
      * rewrite (Hex 1%nat 2%nat v2) by (assumption || lia). reflexivity.
      * reflexivity.
  - destruct (dict_get codes (Str.take 2 digits)) as [v2|] eqn:G2.
    + rewrite (Hex 1%nat 2%nat v2) by (assumption || lia). reflexivity.
    + reflexivity.
Qed.

(** X12: no calling code of the table is the beginning of another one.
    So at most one of the three prefixes of a digit string is a key,
    and trying the lengths shortest first would give the same country
    as trying them longest first. *)
Theorem country_codes_form_a_prefix_code :
  prefix_free country_codes = true
  /\ (forall (digits : string) (m n : nat) (v : string),
      (1 <= m < n)%nat ->
      (n <= String.length digits)%nat ->
      dict_get country_codes (Str.take n digits) = Some v ->
      dict_get country_codes (Str.take m digits) = None)
  /\ (forall digits : string,
      prefix_lookup country_codes digits [3; 2; 1]%nat
      = prefix_lookup country_codes digits [1; 2; 3]%nat).
Proof.
  split; [exact country_codes_prefix_free|]. split.
  - intros digits m n v.
    exact (prefix_free_exclusive _ _ _ _ _ country_codes_prefix_free).
  - intros digits.
    exact (prefix_lookup_any_order _ _ country_codes_prefix_free).
Qed.

Lemma country_codes_form_a_prefix_code_witness :
  dict_get country_codes (Str.take 2 "380441234567") = None
  /\ dict_get country_codes (Str.take 1 "380441234567") = None
  /\ prefix_lookup country_codes "380441234567" [1; 2; 3]%nat = "Ukraine".
Proof.
  destruct country_codes_form_a_prefix_code as [_ [Hone Hany]].
  split; [|split].
  - apply (Hone "380441234567" 2%nat 3%nat "Ukraine");
      [lia | simpl; lia | vm_compute; reflexivity].
  - apply (Hone "380441234567" 1%nat 3%nat "Ukraine");
      [lia | simpl; lia | vm_compute; reflexivity].
  - rewrite <- Hany. vm_compute. reflexivity.
Defined.

Lemma prefix_lookup_first_three (codes : dict) (digits : string) :
  prefix_lookup codes digits [3; 2; 1]%nat
  = prefix_lookup codes (Str.take 3 digits) [3; 2; 1]%nat.
Proof.
  cbn [prefix_lookup].
  rewrite !take_take by lia.
  assert (Hlen : forall n, (n <= 3)%nat ->
            (n <=? String.length (Str.take 3 digits))%nat
            = (n <=? String.length digits)%nat).
  { intros n Hn. rewrite take_length.
    destruct (n <=? String.length digits)%nat eqn:Hle.
    - apply Nat.leb_le in Hle. apply Nat.leb_le. lia.
    - apply Nat.leb_gt in Hle. apply Nat.leb_gt. lia. }
  rewrite !Hlen by lia. reflexivity.
Qed.

(** X13: of a phone string of at least two characters only the first
    three digits count: two such strings whose digits start with the
    same three give the same answer.  A phone string without any
    digit gives 'Unknown'. *)
Theorem first_three_digits_decide :
  (forall (p q : string) (w : world),
      (2 <= String.length p)%nat ->
      (2 <= String.length q)%nat ->
      Str.take 3 (Str.filter Str.isdigit p)
      = Str.take 3 (Str.filter Str.isdigit q) ->
      _country_from_phone (PStr p) w = _country_from_phone (PStr q) w)
  /\ (forall (p : string) (w : world),
      Str.filter Str.isdigit p = "" ->
      _country_from_phone (PStr p) w = (Ok "Unknown", w)).
Proof.
  split.
  - intros p q w Hp Hq Hthree.
    rewrite !country_from_phone_long by assumption.
    rewrite (prefix_lookup_first_three _ (Str.filter Str.isdigit p)).
    rewrite (prefix_lookup_first_three _ (Str.filter Str.isdigit q)).
    now rewrite Hthree.
  - intros p w Hnone. rewrite country_from_phone_str, Hnone.
    now destruct (String.length p <? 2)%nat.
Qed.

Lemma first_three_digits_decide_witness :
  _country_from_phone (PStr "+44 20 7946 0958") world0
  = _country_from_phone (PStr "442-anything") world0
  /\ _country_from_phone (PStr "(tel.)") world0 = (Ok "Unknown", world0).
Proof.
  destruct first_three_digits_decide as [Hthree Hnone].
  split.
  - apply Hthree; [simpl; lia | simpl; lia | vm_compute; reflexivity].
  - apply Hnone. vm_compute. reflexivity.
Defined.

(** ** More on the last-seen label *)

Lemma status_answer user w st ts :
  status user = Some st ->
  was_online st = Some (LDatetime ts) ->
  value (_get_user_status user w)
  = Ok (describe_elapsed
          (timedelta_of_micros (clock w (reads w) - micros ts))).
Proof.
  intros Hstatus Honline. rewrite get_user_status_run.
  now rewrite Hstatus, Honline.
Qed.

Lemma describe_elapsed_cases (elapsed : Z) :
  let d := elapsed / 86400000000 in
  let s := (elapsed mod 86400000000) / 1000000 in
  0 <= s < 86400
  /\ describe_elapsed (timedelta_of_micros elapsed)
     = if d >? 365 then
         "Last seen: " ++ Str.of_Z (d / 365) ++ " year(s) ago"
       else if d >? 30 then
         "Last seen: " ++ Str.of_Z (d / 30) ++ " month(s) ago"
       else if d >? 0 then "Last seen: " ++ Str.of_Z d ++ " day(s) ago"
       else if s >? 3600 then
         "Last seen: " ++ Str.of_Z (s / 3600) ++ " hour(s) ago"
       else if s >? 60 then
         "Last seen: " ++ Str.of_Z (s / 60) ++ " minute(s) ago"
       else "Last seen: Recently".
Proof.
  intros d s. split; [|reflexivity].
  subst s. Z.div_mod_to_equations. lia.
Qed.

(** X14: the count printed in a last-seen label is never 0 and stays
    within its unit: at least 1 year, 1 to 12 months, 1 to 30 days, 1
    to 23 hours, 1 to 60 minutes. *)
Theorem last_seen_counts_bounded
    (user : user_obj) (w : world) (st : status_obj) (ts : datetime) :
  status user = Some st ->
  was_online st = Some (LDatetime ts) ->
  let answer := value (_get_user_status user w) in
  (exists n, 1 <= n
             /\ answer = Ok ("Last seen: " ++ Str.of_Z n ++ " year(s) ago"))
  \/ (exists n, 1 <= n <= 12
                /\ answer = Ok ("Last seen: " ++ Str.of_Z n ++ " month(s) ago"))
  \/ (exists n, 1 <= n <= 30
                /\ answer = Ok ("Last seen: " ++ Str.of_Z n ++ " day(s) ago"))
  \/ (exists n, 1 <= n <= 23
                /\ answer = Ok ("Last seen: " ++ Str.of_Z n ++ " hour(s) ago"))
  \/ (exists n, 1 <= n <= 60
                /\ answer = Ok ("Last seen: " ++ Str.of_Z n ++ " minute(s) ago"))
  \/ answer = Ok "Last seen: Recently".
Proof.
  intros Hstatus Honline answer. subst answer.
  rewrite (status_answer user w st ts Hstatus Honline).
  destruct (describe_elapsed_cases (clock w (reads w) - micros ts))
    as [Hs ->].
  set (d := (clock w (reads w) - micros ts) / 86400000000) in *.
  set (s := ((clock w (reads w) - micros ts) mod 86400000000) / 1000000) in *.
  destruct (Z.gtb_spec d 365) as [Hd1 | Hd1].
  { left. exists (d / 365). split; [|reflexivity].
    Z.div_mod_to_equations. lia. }
  destruct (Z.gtb_spec d 30) as [Hd2 | Hd2].
  { right. left. exists (d / 30). split; [|reflexivity].
    Z.div_mod_to_equations. lia. }
  destruct (Z.gtb_spec d 0) as [Hd3 | Hd3].
  { right. right. left. exists d. split; [lia | reflexivity]. }
  destruct (Z.gtb_spec s 3600) as [Hs1 | Hs1].
  { right. right. right. left. exists (s / 3600). split; [|reflexivity].
    Z.div_mod_to_equations. lia. }
  destruct (Z.gtb_spec s 60) as [Hs2 | Hs2].
  { right. right. right. right. left. exists (s / 60).
    split; [|reflexivity]. Z.div_mod_to_equations. lia. }
  right. right. right. right. right. reflexivity.
Qed.

Lemma last_seen_counts_bounded_witness :
  let answer :=
    value (_get_user_status offline_user (world_at (364 * 86400000000))) in
  (exists n, 1 <= n
             /\ answer = Ok ("Last seen: " ++ Str.of_Z n ++ " year(s) ago"))
  \/ (exists n, 1 <= n <= 12
                /\ answer = Ok ("Last seen: " ++ Str.of_Z n ++ " month(s) ago"))
  \/ (exists n, 1 <= n <= 30
                /\ answer = Ok ("Last seen: " ++ Str.of_Z n ++ " day(s) ago"))
  \/ (exists n, 1 <= n <= 23
                /\ answer = Ok ("Last seen: " ++ Str.of_Z n ++ " hour(s) ago"))
  \/ (exists n, 1 <= n <= 60
                /\ answer = Ok ("Last seen: " ++ Str.of_Z n ++ " minute(s) ago"))
  \/ answer = Ok "Last seen: Recently".
Proof.
  exact (last_seen_counts_bounded offline_user (world_at (364 * 86400000000))
           _ _ eq_refl eq_refl).
Defined.

(** X15: a last-seen stamp that is ahead of the clock never gives
    years, months or days: the label is read off the seconds left
    within the day.  A stamp ahead by at most one hour gives
    'Last seen: 23 hour(s) ago'. *)
Theorem last_seen_ahead_of_the_clock
    (user : user_obj) (w : world) (st : status_obj) (ts : datetime) :
  status user = Some st ->
  was_online st = Some (LDatetime ts) ->
  let elapsed := clock w (reads w) - micros ts in
  let s := (elapsed mod 86400000000) / 1000000 in
  let answer := value (_get_user_status user w) in
  (elapsed < 0 ->
   answer
   = Ok (if s >? 3600 then
           "Last seen: " ++ Str.of_Z (s / 3600) ++ " hour(s) ago"
         else if s >? 60 then
           "Last seen: " ++ Str.of_Z (s / 60) ++ " minute(s) ago"
         else "Last seen: Recently"))
  /\ (-3600000000 <= elapsed < 0 ->
      answer = Ok "Last seen: 23 hour(s) ago").
Proof.
  intros Hstatus Honline. cbv zeta.
  rewrite (status_answer user w st ts Hstatus Honline).
  destruct (describe_elapsed_cases (clock w (reads w) - micros ts))
    as [Hs ->].
  set (elapsed := clock w (reads w) - micros ts) in *.
  set (s := (elapsed mod 86400000000) / 1000000) in *.
  set (d := elapsed / 86400000000).
  assert (Hd : elapsed < 0 -> d < 0)
    by (intros Hneg; subst d; Z.div_mod_to_equations; lia).
  split.
  - intros Hneg. specialize (Hd Hneg).
    now rewrite (gtb_false d 365), (gtb_false d 30), (gtb_false d 0) by lia.
  - intros [Hlow Hneg]. specialize (Hd Hneg).
    rewrite (gtb_false d 365), (gtb_false d 30), (gtb_false d 0) by lia.
    assert (Hrange : 82800 <= s <= 86399)
      by (subst s; Z.div_mod_to_equations; lia).
    rewrite (gtb_true s 3600) by lia.
    assert (Hq : s / 3600 = 23) by (Z.div_mod_to_equations; lia).
    now rewrite Hq.
Qed.

Lemma last_seen_ahead_of_the_clock_witness :
  value (_get_user_status offline_user (world_at (-1)))
  = Ok "Last seen: 23 hour(s) ago".
Proof.
  pose proof (last_seen_ahead_of_the_clock offline_user (world_at (-1))
                _ _ eq_refl eq_refl) as H.
  cbv zeta in H. destruct H as [_ H]. apply H. vm_compute.
  split; [intro Hc; discriminate Hc | reflexivity].
Defined.

Lemma describe_elapsed_known (diff : timedelta) :
  describe_elapsed diff <> "Unknown".
Proof.
  unfold describe_elapsed.
  repeat match goal with
         | |- context [if ?b then _ else _] => destruct b
         end; discriminate.
Qed.

Lemma describe_category_known (name : string) :
  describe_category name <> "Unknown".
Proof.
  unfold describe_category.
  repeat match goal with
         | |- context [if ?b then _ else _] => destruct b
         end; discriminate.
Qed.

(** X16: the classifier answers 'Unknown' in exactly two cases: the
    account has no status attribute, or the [was_online] of its status
    is an integer of more than 4300 digits, whose conversion raises
    and is caught.  Any other status gets a label of its own, also one
    whose class is not among those the classifier knows (None
    included, which gives 'Status: NoneType'). *)
Theorem status_unknown_cases (user : user_obj) (w : world) :
  (value (_get_user_status user w) = Ok "Unknown"
   <-> (status user = None
        \/ exists st z,
            status user = Some st
            /\ was_online st = Some (LValue (PInt z))
            /\ int_too_long z = true))
  /\ (status user = Some (mkStatus "NoneType" None) ->
      value (_get_user_status user w) = Ok "Status: NoneType").
Proof.
  rewrite get_user_status_run.
  split.
  - destruct (status user) as [st|]; [|split; [now left | reflexivity]].
    destruct (was_online st) as [[ts | v]|] eqn:Honline.
    + split.
      * intros Hvalue. unfold value, fst in Hvalue.
        injection Hvalue as Hlabel.
        now destruct (describe_elapsed_known _ Hlabel).
      * intros [Hnone | [st' [z [Hst [Hz _]]]]]; [discriminate|].
        injection Hst as <-. rewrite Honline in Hz. discriminate.
    + destruct v as [| b | z | s]; cbn [py_str];
        try (split; [intros Hvalue; discriminate Hvalue
                    | intros [Hnone | [st' [z' [Hst [Hz _]]]]];
                      [discriminate
                      | injection Hst as <-; rewrite Honline in Hz;
                        discriminate]]).
      unfold int_str. destruct (int_too_long z) eqn:Hlong.
      * split; [|reflexivity]. intros _. right. now exists st, z.
      * split; [intros Hvalue; discriminate Hvalue|].
        intros [Hnone | [st' [z' [Hst [Hz Hlong']]]]]; [discriminate|].
        injection Hst as <-. rewrite Honline in Hz.
        injection Hz as <-. congruence.
    + split.
      * intros Hvalue. unfold value, fst in Hvalue.
        injection Hvalue as Hlabel.
        now destruct (describe_category_known _ Hlabel).
      * intros [Hnone | [st' [z [Hst [Hz _]]]]]; [discriminate|].
        injection Hst as <-. rewrite Honline in Hz. discriminate.
  - intros ->. reflexivity.
Qed.

Lemma status_unknown_cases_witness :
  value (_get_user_status
           (mkUser (PInt 42) None None (Some (mkStatus "NoneType" None)))
           world0)
  = Ok "Status: NoneType"
  /\ value (_get_user_status
              (mkUser (PInt 42) None None
                      (Some (mkStatus "UserStatusOffline"
                                      (Some (LValue (PInt huge_int))))))
              world0)
     = Ok "Unknown".
Proof.
  split.
  - apply (status_unknown_cases
             (mkUser (PInt 42) None None (Some (mkStatus "NoneType" None)))
             world0).
    reflexivity.
  - apply (status_unknown_cases
             (mkUser (PInt 42) None None
                     (Some (mkStatus "UserStatusOffline"
                                     (Some (LValue (PInt huge_int))))))
             world0).
    right. eexists. eexists. split; [reflexivity|]. split; [reflexivity|].
    vm_compute. reflexivity.
Defined.
